(** * Vendor performance analysis: bulk loader and vendor summary builder

    A shallow embedding of [ingestion_db.py] and [get_vendor_summary.py].

    - Part I   models the values SQLite stores and the summary query of
               [create_vendor_summary];
    - Part II  models the pandas tables the cleaning step works on, the
               Python store (objects, module globals) and [clean_data];
    - Part III models the module [get_vendor_summary.py] as a script;
    - Part IV  models [ingest_db] and [load_raw_data];
    - Part V   holds the notions the theorems are stated with, Part VI the
               example data, Part VII the proofs. *)

From Stdlib Require Import ZArith QArith String Ascii List Bool Lia Permutation.
From Stdlib Require Import SpecFloat Sorted.
From stdpp Require Import gmap strings list.

Local Open Scope string_scope.
Local Open Scope list_scope.
Local Open Scope Z_scope.

(* ===================================================================== *)
(** * Part I: the summary query                                           *)
(* ===================================================================== *)

(** ** Values stored by SQLite

    A cell holds NULL, a 64-bit integer, an IEEE double or a text.  A double
    is a [spec_float] at precision 53 and maximal exponent 1024.  SQLite
    stores a not-a-number as NULL, so [Real S754_nan] is read as NULL
    everywhere below.  Cells are compared as they are stored: no column
    affinity turns a text into a number or back before a comparison. *)

Inductive value :=
  | Null
  | Int (z : Z)
  | Real (f : spec_float)
  | Text (s : string).

(** The exact number a numeric cell denotes: SQLite compares an integer with
    a double by value, not after rounding the integer. *)
Inductive num :=
  | NegInf
  | Fin (q : Q)
  | PosInf.

Definition float_num (f : spec_float) : option num :=
  match f with
  | S754_zero _ => Some (Fin 0)
  | S754_infinity s => Some (if s then NegInf else PosInf)
  | S754_nan => None
  | S754_finite s m e =>
      Some (Fin (inject_Z (cond_Zopp s (Zpos m)) * Qpower (2 # 1) e))
  end.

Definition num_of (v : value) : option num :=
  match v with
  | Int z => Some (Fin (inject_Z z))
  | Real f => float_num f
  | Null | Text _ => None
  end.

Definition num_compare (a b : num) : comparison :=
  match a, b with
  | NegInf, NegInf => Eq
  | NegInf, _ => Lt
  | Fin _, NegInf => Gt
  | Fin p, Fin q => Qcompare p q
  | Fin _, PosInf => Lt
  | PosInf, PosInf => Eq
  | PosInf, _ => Gt
  end.

Definition is_null (v : value) : bool :=
  match v with
  | Text _ => false
  | _ => match num_of v with None => true | Some _ => false end
  end.

(** The order of ORDER BY and GROUP BY: NULL first, then the numbers by
    value, then the texts byte by byte. *)
Definition sql_compare (a b : value) : comparison :=
  match a, b with
  | Text s, Text t => String.compare s t
  | Text _, _ => Gt
  | _, Text _ => Lt
  | _, _ =>
      match num_of a, num_of b with
      | None, None => Eq
      | None, Some _ => Lt
      | Some _, None => Gt
      | Some x, Some y => num_compare x y
      end
  end.

Definition is_Eq (c : comparison) : bool :=
  match c with Eq => true | _ => false end.

(** GROUP BY puts two cells in one group when they compare equal; two NULLs
    do. *)
Definition same (a b : value) : bool := is_Eq (sql_compare a b).

(** [a = b] as a join condition: NULL on either side makes it not true. *)
Definition sql_eq (a b : value) : bool :=
  negb (is_null a) && negb (is_null b) && same a b.

(** [a > 0] as a WHERE condition. *)
Definition sql_gt_zero (a : value) : bool :=
  negb (is_null a) &&
  match sql_compare a (Int 0) with Gt => true | _ => false end.

(** ** Rows of the four base tables (the columns the query reads) *)

Record purchase := {
  p_VendorNumber : value;
  p_VendorName : value;
  p_Brand : value;
  p_Description : value;
  p_PurchasePrice : value;
  p_Quantity : value;
  p_Dollars : value
}.

Record purchase_price := {
  pp_Brand : value;
  pp_Price : value;
  pp_Volume : value
}.

Record invoice := {
  vi_VendorNumber : value;
  vi_Freight : value
}.

Record sale := {
  s_VendorNo : value;
  s_Brand : value;
  s_SalesQuantity : value;
  s_SalesDollars : value;
  s_SalesPrice : value;
  s_ExciseTax : value
}.

Record database := {
  purchases : list purchase;
  purchase_prices : list purchase_price;
  vendor_invoice : list invoice;
  Sales : list sale
}.

(** ** Rows of the three sub-aggregates and of the result *)

Record fs_row := {
  fs_VendorNumber : value;
  fs_FreightCost : value
}.

Record ps_row := {
  ps_VendorNumber : value;
  ps_VendorName : value;
  ps_Brand : value;
  ps_Description : value;
  ps_PurchasePrice : value;
  ps_ActualPrice : value;
  ps_Volume : value;
  ps_TotalPurchaseQuantity : value;
  ps_TotalPurchaseDollars : value
}.

Record ss_row := {
  ss_VendorNo : value;
  ss_Brand : value;
  ss_TotalSalesQuantity : value;
  ss_TotalSalesDollars : value;
  ss_TotalSalesPrice : value;
  ss_TotalExciseTax : value
}.

Record summary_row := {
  VendorNumber : value;
  VendorName : value;
  Brand : value;
  Description : value;
  PurchasePrice : value;
  ActualPrice : value;
  Volume : value;
  TotalPurchaseQuantity : value;
  TotalPurchaseDollars : value;
  TotalSalesQuantity : value;
  TotalSalesDollars : value;
  TotalSalesPrice : value;
  TotalExciseTax : value;
  FreightCost : value
}.

(** ** Relational operators *)

Section Relational.
Context {A B : Type}.

(** GROUP BY: a group is its first row and the rows that joined it later,
    in table order; groups are listed in the order of their first rows. *)
Fixpoint insert_group (same_key : A → A → bool) (x : A)
    (gs : list (A * list A)) : list (A * list A) :=
  match gs with
  | [] => [(x, [])]
  | (r, m) :: gs' =>
      if same_key r x then (r, m ++ [x]) :: gs'
      else (r, m) :: insert_group same_key x gs'
  end.

Definition group_by (same_key : A → A → bool) (l : list A)
    : list (A * list A) :=
  fold_left (λ gs x, insert_group same_key x gs) l [].

Definition members (g : A * list A) : list A := g.1 :: g.2.

(** JOIN ... ON *)
Definition inner_join (on : A → B → bool) (ls : list A) (rs : list B)
    : list (A * B) :=
  flat_map (λ l, map (pair l) (List.filter (on l) rs)) ls.

(** LEFT JOIN ... ON: a left row without a match is kept once, with no
    right row. *)
Definition left_join (on : A → B → bool) (ls : list A) (rs : list B)
    : list (A * option B) :=
  flat_map (λ l,
    match List.filter (on l) rs with
    | [] => [(l, None)]
    | ms => map (λ r, (l, Some r)) ms
    end) ls.

(** ORDER BY key DESC.  SQLite leaves the order of rows with equal keys
    open; here they keep the order they had. *)
Fixpoint insert_desc (key : A → value) (x : A) (l : list A) : list A :=
  match l with
  | [] => [x]
  | y :: l' =>
      match sql_compare (key x) (key y) with
      | Lt => y :: insert_desc key x l'
      | _ => x :: y :: l'
      end
  end.

Definition order_by_desc (key : A → value) (l : list A) : list A :=
  fold_right (insert_desc key) [] l.
End Relational.

Definition same_keys (ks ks' : list value) : bool :=
  forallb (λ kk, same kk.1 kk.2) (combine ks ks').

(** ** The query of [create_vendor_summary] *)

Section SummaryQuery.
(** The aggregate SUM of the SQLite engine over the cells of one group:
    [None] when the engine aborts the statement (an integer sum that
    leaves 64 bits). *)
Variable sql_sum : list value → option value.

(** WITH FreightSummary AS (SELECT VendorNumber, SUM(Freight) AS FreightCost
    FROM vendor_invoice GROUP BY VendorNumber) *)
Definition freight_of_group (g : invoice * list invoice) : option fs_row :=
  f ← sql_sum (map vi_Freight (members g));
  Some {| fs_VendorNumber := vi_VendorNumber g.1; fs_FreightCost := f |}.

Definition FreightSummary (db : database) : option (list fs_row) :=
  mapM freight_of_group
    (group_by (λ a b, same (vi_VendorNumber a) (vi_VendorNumber b))
       (vendor_invoice db)).

(** PurchaseSummary: purchases p JOIN purchase_prices pp ON p.Brand =
    pp.Brand WHERE p.PurchasePrice > 0 GROUP BY p.VendorNumber,
    p.VendorName, p.Brand, p.Description, p.PurchasePrice, pp.Price,
    pp.Volume *)
Definition purchase_key (r : purchase * purchase_price) : list value :=
  [p_VendorNumber r.1; p_VendorName r.1; p_Brand r.1; p_Description r.1;
   p_PurchasePrice r.1; pp_Price r.2; pp_Volume r.2].

Definition priced_purchases (db : database)
    : list (purchase * purchase_price) :=
  List.filter (λ r, sql_gt_zero (p_PurchasePrice r.1))
    (inner_join (λ p pp, sql_eq (p_Brand p) (pp_Brand pp))
       (purchases db) (purchase_prices db)).

Definition purchase_of_group
    (g : (purchase * purchase_price) * list (purchase * purchase_price))
    : option ps_row :=
  q ← sql_sum (map (λ r, p_Quantity r.1) (members g));
  d ← sql_sum (map (λ r, p_Dollars r.1) (members g));
  Some {| ps_VendorNumber := p_VendorNumber g.1.1;
          ps_VendorName := p_VendorName g.1.1;
          ps_Brand := p_Brand g.1.1;
          ps_Description := p_Description g.1.1;
          ps_PurchasePrice := p_PurchasePrice g.1.1;
          ps_ActualPrice := pp_Price g.1.2;
          ps_Volume := pp_Volume g.1.2;
          ps_TotalPurchaseQuantity := q;
          ps_TotalPurchaseDollars := d |}.

Definition PurchaseSummary (db : database) : option (list ps_row) :=
  mapM purchase_of_group
    (group_by (λ a b, same_keys (purchase_key a) (purchase_key b))
       (priced_purchases db)).

(** SalesSummary: FROM Sales GROUP BY VendorNo, Brand *)
Definition sales_key (s : sale) : list value := [s_VendorNo s; s_Brand s].

Definition sales_of_group (g : sale * list sale) : option ss_row :=
  q ← sql_sum (map s_SalesQuantity (members g));
  d ← sql_sum (map s_SalesDollars (members g));
  p ← sql_sum (map s_SalesPrice (members g));
  t ← sql_sum (map s_ExciseTax (members g));
  Some {| ss_VendorNo := s_VendorNo g.1;
          ss_Brand := s_Brand g.1;
          ss_TotalSalesQuantity := q;
          ss_TotalSalesDollars := d;
          ss_TotalSalesPrice := p;
          ss_TotalExciseTax := t |}.

Definition SalesSummary (db : database) : option (list ss_row) :=
  mapM sales_of_group
    (group_by (λ a b, same_keys (sales_key a) (sales_key b)) (Sales db)).

(** ON ps.VendorNumber = ss.VendorNo AND ps.Brand = ss.Brand *)
Definition on_sales (ps : ps_row) (ss : ss_row) : bool :=
  sql_eq (ps_VendorNumber ps) (ss_VendorNo ss) &&
  sql_eq (ps_Brand ps) (ss_Brand ss).

(** ON ps.VendorNumber = fs.VendorNumber *)
Definition on_freight (l : ps_row * option ss_row) (fs : fs_row) : bool :=
  sql_eq (ps_VendorNumber l.1) (fs_VendorNumber fs).

Definition from_ss (f : ss_row → value) (o : option ss_row) : value :=
  match o with Some ss => f ss | None => Null end.

Definition from_fs (f : fs_row → value) (o : option fs_row) : value :=
  match o with Some fs => f fs | None => Null end.

(** The SELECT list of the outer query. *)
Definition select_row (j : (ps_row * option ss_row) * option fs_row)
    : summary_row :=
  let ps := j.1.1 in
  {| VendorNumber := ps_VendorNumber ps;
     VendorName := ps_VendorName ps;
     Brand := ps_Brand ps;
     Description := ps_Description ps;
     PurchasePrice := ps_PurchasePrice ps;
     ActualPrice := ps_ActualPrice ps;
     Volume := ps_Volume ps;
     TotalPurchaseQuantity := ps_TotalPurchaseQuantity ps;
     TotalPurchaseDollars := ps_TotalPurchaseDollars ps;
     TotalSalesQuantity := from_ss ss_TotalSalesQuantity j.1.2;
     TotalSalesDollars := from_ss ss_TotalSalesDollars j.1.2;
     TotalSalesPrice := from_ss ss_TotalSalesPrice j.1.2;
     TotalExciseTax := from_ss ss_TotalExciseTax j.1.2;
     FreightCost := from_fs fs_FreightCost j.2 |}.

(** FROM PurchaseSummary ps LEFT JOIN SalesSummary ss ... LEFT JOIN
    FreightSummary fs ... ORDER BY ps.TotalPurchaseDollars DESC *)
Definition summary_query (db : database) : option (list summary_row) :=
  fs ← FreightSummary db;
  ps ← PurchaseSummary db;
  ss ← SalesSummary db;
  Some (order_by_desc TotalPurchaseDollars
          (map select_row
             (left_join on_freight (left_join on_sales ps ss) fs))).
End SummaryQuery.

(* ===================================================================== *)
(** * Part II: pandas tables, the Python store and [clean_data]           *)
(* ===================================================================== *)

(** ** Doubles and 64-bit integers as NumPy computes with them *)

Definition fsub : spec_float → spec_float → spec_float := SFsub 53 1024.
Definition fmul : spec_float → spec_float → spec_float := SFmul 53 1024.
Definition fdiv : spec_float → spec_float → spec_float := SFdiv 53 1024.

(** Conversion of an integer to the nearest double. *)
Definition float_of_Z (z : Z) : spec_float := binary_normalize 53 1024 z 0 false.

Definition wrap64 (z : Z) : Z := (z + 2 ^ 63) mod 2 ^ 64 - 2 ^ 63.

Definition in_int64 (z : Z) : bool := (- 2 ^ 63 <=? z) && (z <? 2 ^ 63).

Definition is_nan (f : spec_float) : bool :=
  match f with S754_nan => true | _ => false end.

Definition is_zero (f : spec_float) : bool :=
  match f with S754_zero _ => true | _ => false end.

(** Infinite or not a number. *)
Definition non_finite (f : spec_float) : bool :=
  match f with S754_infinity _ | S754_nan => true | _ => false end.

(** ** Columns and frames *)

(** What a cell of an object-typed column holds. *)
Inductive pyobj :=
  | PyNone
  | PyInt (z : Z)
  | PyFloat (f : spec_float)
  | PyStr (s : string).

(** A column (a Series) with its dtype. *)
Inductive column :=
  | Int64 (l : list Z)
  | Float64 (l : list spec_float)
  | Object (l : list pyobj).

(** A DataFrame: its columns in order, by name. *)
Definition frame := list (string * column).

Fixpoint get_col (df : frame) (name : string) : option column :=
  match df with
  | [] => None
  | (n, c) :: df' => if String.eqb n name then Some c else get_col df' name
  end.

(** [df[name] = c]: an existing column is replaced where it stands, a new one
    is appended after the last column. *)
Fixpoint set_col (df : frame) (name : string) (c : column) : frame :=
  match df with
  | [] => [(name, c)]
  | (n, c') :: df' =>
      if String.eqb n name then (n, c) :: df' else (n, c') :: set_col df' name c
  end.

Definition column_names (df : frame) : list string := map fst df.

(** The cells of a column as Python objects. *)
Definition cells (c : column) : list pyobj :=
  match c with
  | Int64 l => map PyInt l
  | Float64 l => map PyFloat l
  | Object l => l
  end.

(** [pandas.isna] on one cell. *)
Definition py_isna (o : pyobj) : bool :=
  match o with
  | PyNone => true
  | PyFloat f => is_nan f
  | _ => false
  end.

Definition py_is_zero (o : pyobj) : bool :=
  match o with
  | PyInt z => z =? 0
  | PyFloat f => is_zero f
  | _ => false
  end.

(** ** Exceptions and results *)

Inductive exn :=
  | IndentationError
  | SyntaxError
  | ModuleNotFoundError
  | NameError
  | TypeError
  | ValueError
  | KeyError
  | AttributeError
  | ZeroDivisionError
  | OverflowError
  | OperationalError.

Inductive result (A : Type) :=
  | Ok (a : A)
  | Raise (e : exn).
Arguments Ok {A} a.
Arguments Raise {A} e.

Definition result_bind {A B} (r : result A) (k : A → result B) : result B :=
  match r with Ok a => k a | Raise e => Raise e end.

Fixpoint result_map {A B} (f : A → result B) (l : list A) : result (list B) :=
  match l with
  | [] => Ok []
  | x :: l' =>
      result_bind (f x) (λ y, result_bind (result_map f l') (λ k, Ok (y :: k)))
  end.

(** ** [pandas.read_sql_query]: from result rows to a frame *)

Definition is_Int (v : value) : bool :=
  match v with Int _ => true | _ => false end.

Definition is_Text (v : value) : bool :=
  match v with Text _ => true | _ => false end.

Definition float_of_value (v : value) : spec_float :=
  match v with
  | Int z => float_of_Z z
  | Real f => f
  | _ => S754_nan
  end.

Definition int_of_value (v : value) : Z :=
  match v with Int z => z | _ => 0 end.

Definition pyobj_of_value (v : value) : pyobj :=
  match v with
  | Null => PyNone
  | Int z => PyInt z
  | Real f => if is_nan f then PyNone else PyFloat f
  | Text s => PyStr s
  end.

(** The dtype pandas infers for the cells of one result column: integers
    only give int64; numbers with or without NULLs give float64, NULL read as
    not-a-number; a column without rows, of NULLs only, or with a text stays
    an object column. *)
Definition column_of_values (vs : list value) : column :=
  if forallb is_null vs || existsb is_Text vs then Object (map pyobj_of_value vs)
  else if forallb is_Int vs then Int64 (map int_of_value vs)
  else Float64 (map float_of_value vs).

(** The columns come in the order of the SELECT list. *)
Definition read_sql_query (rows : list summary_row) : frame :=
  [ ("VendorNumber", column_of_values (map VendorNumber rows));
    ("VendorName", column_of_values (map VendorName rows));
    ("Brand", column_of_values (map Brand rows));
    ("Description", column_of_values (map Description rows));
    ("PurchasePrice", column_of_values (map PurchasePrice rows));
    ("ActualPrice", column_of_values (map ActualPrice rows));
    ("Volume", column_of_values (map Volume rows));
    ("TotalPurchaseQuantity", column_of_values (map TotalPurchaseQuantity rows));
    ("TotalPurchaseDollars", column_of_values (map TotalPurchaseDollars rows));
    ("TotalSalesQuantity", column_of_values (map TotalSalesQuantity rows));
    ("TotalSalesDollars", column_of_values (map TotalSalesDollars rows));
    ("TotalSalesPrice", column_of_values (map TotalSalesPrice rows));
    ("TotalExciseTax", column_of_values (map TotalExciseTax rows));
    ("FreightCost", column_of_values (map FreightCost rows)) ].

(** ** Arithmetic on Python numbers (the cells of object columns) *)

(** [float(z)]: a Python integer too large for a double raises. *)
Definition py_float_of_int (z : Z) : result spec_float :=
  let f := float_of_Z z in
  if non_finite f then Raise OverflowError else Ok f.

(** [x / y] on two Python integers, [y] not zero: the quotient rounded once. *)
Definition int_truediv (x y : Z) : result spec_float :=
  if x =? 0 then Ok (S754_zero (y <? 0))
  else
    let '(mz, ez, lz) := SFdiv_core_binary 53 1024 (Z.abs x) 0 (Z.abs y) 0 in
    let q := binary_round_aux 53 1024 (xorb (x <? 0) (y <? 0)) mz ez lz in
    if non_finite q then Raise OverflowError else Ok q.

Definition py_sub (a b : pyobj) : result pyobj :=
  match a, b with
  | PyInt x, PyInt y => Ok (PyInt (x - y))
  | PyInt x, PyFloat g => result_bind (py_float_of_int x) (λ f, Ok (PyFloat (fsub f g)))
  | PyFloat f, PyInt y => result_bind (py_float_of_int y) (λ g, Ok (PyFloat (fsub f g)))
  | PyFloat f, PyFloat g => Ok (PyFloat (fsub f g))
  | _, _ => Raise TypeError
  end.

(** Python raises on a zero divisor, for integers and for floats. *)
Definition py_truediv (a b : pyobj) : result pyobj :=
  match a, b with
  | PyInt x, PyInt y =>
      if y =? 0 then Raise ZeroDivisionError
      else result_bind (int_truediv x y) (λ q, Ok (PyFloat q))
  | PyInt x, PyFloat g =>
      result_bind (py_float_of_int x) (λ f,
        if is_zero g then Raise ZeroDivisionError else Ok (PyFloat (fdiv f g)))
  | PyFloat f, PyInt y =>
      result_bind (py_float_of_int y) (λ g,
        if is_zero g then Raise ZeroDivisionError else Ok (PyFloat (fdiv f g)))
  | PyFloat f, PyFloat g =>
      if is_zero g then Raise ZeroDivisionError else Ok (PyFloat (fdiv f g))
  | _, _ => Raise TypeError
  end.

Fixpoint str_repeat (s : string) (n : nat) : string :=
  match n with
  | O => ""
  | S n' => String.append s (str_repeat s n')
  end.

(** [a * k] for an integer literal [k]; a string is repeated. *)
Definition py_mul_int (k : Z) (a : pyobj) : result pyobj :=
  match a with
  | PyInt x => Ok (PyInt (x * k))
  | PyFloat f => Ok (PyFloat (fmul f (float_of_Z k)))
  | PyStr s => Ok (PyStr (str_repeat s (Z.to_nat k)))
  | PyNone => Raise TypeError
  end.

(** ** Arithmetic on columns

    Two numeric columns are combined by NumPy: 64-bit integers wrap around,
    a mixed pair is computed in doubles, and a division is always computed in
    doubles and never raises.  As soon as one operand is an object column the
    cells are combined one by one as Python numbers (numeric cells met there
    are taken as Python numbers too). *)

Definition as_floats (c : column) : option (list spec_float) :=
  match c with
  | Int64 l => Some (map float_of_Z l)
  | Float64 l => Some l
  | Object _ => None
  end.

Definition obj_binop (op : pyobj → pyobj → result pyobj) (a b : column)
    : result column :=
  result_bind
    (result_map (λ xy : pyobj * pyobj, op xy.1 xy.2) (combine (cells a) (cells b)))
    (λ l, Ok (Object l)).

(** [a - b] *)
Definition col_sub (a b : column) : result column :=
  match a, b with
  | Int64 x, Int64 y => Ok (Int64 (zip_with (λ u v, wrap64 (u - v)) x y))
  | _, _ =>
      match as_floats a, as_floats b with
      | Some x, Some y => Ok (Float64 (zip_with fsub x y))
      | _, _ => obj_binop py_sub a b
      end
  end.

(** [a / b] *)
Definition col_div (a b : column) : result column :=
  match as_floats a, as_floats b with
  | Some x, Some y => Ok (Float64 (zip_with fdiv x y))
  | _, _ => obj_binop py_truediv a b
  end.

(** [a * k] for an integer literal [k] *)
Definition col_mul_int (a : column) (k : Z) : result column :=
  match a with
  | Int64 x => Ok (Int64 (map (λ u, wrap64 (u * k)) x))
  | Float64 x => Ok (Float64 (map (λ u, fmul u (float_of_Z k)) x))
  | Object l => result_bind (result_map (py_mul_int k) l) (λ l', Ok (Object l'))
  end.

(** ** The column methods [clean_data] calls *)

(** [fillna(0)] on one column.  An integer column holds no missing value.  An
    object column in which something was filled is converted afterwards to
    the dtype its cells allow (pandas before 3.0). *)
Definition is_PyInt64 (o : pyobj) : bool :=
  match o with PyInt z => in_int64 z | _ => false end.

Definition is_PyNumber (o : pyobj) : bool :=
  match o with PyInt z => in_int64 z | PyFloat _ => true | _ => false end.

Definition py_int (o : pyobj) : Z :=
  match o with PyInt z => z | _ => 0 end.

Definition py_double (o : pyobj) : spec_float :=
  match o with
  | PyInt z => float_of_Z z
  | PyFloat f => f
  | _ => S754_nan
  end.

Definition soft_convert (l : list pyobj) : column :=
  match l with
  | [] => Object l
  | _ =>
      if forallb is_PyInt64 l then Int64 (map py_int l)
      else if forallb is_PyNumber l then Float64 (map py_double l)
      else Object l
  end.

Definition fill_cell (o : pyobj) : pyobj :=
  if py_isna o then PyInt 0 else o.

Definition fillna_zero (c : column) : column :=
  match c with
  | Int64 l => Int64 l
  | Float64 l => Float64 (map (λ f, if is_nan f then S754_zero false else f) l)
  | Object l =>
      if existsb py_isna l then soft_convert (map fill_cell l) else Object l
  end.

(** [str.strip()]: leading and trailing white space removed.  Strings are
    byte strings here and the white space is the ASCII one of Python: tab to
    carriage return, the four separators 28 to 31, and the blank. *)
Definition is_space (a : ascii) : bool :=
  let n := nat_of_ascii a in
  ((9 <=? n) && (n <=? 13) || (28 <=? n) && (n <=? 32))%nat.

Fixpoint lstrip (s : list ascii) : list ascii :=
  match s with
  | a :: s' => if is_space a then lstrip s' else s
  | [] => []
  end.

Definition strip (s : string) : string :=
  string_of_list_ascii
    (rev (lstrip (rev (lstrip (list_ascii_of_string s))))).

Definition is_PyStr (o : pyobj) : bool :=
  match o with PyStr _ => true | _ => false end.

(** The [.str] accessor refuses a column that is not of strings: a numeric
    dtype, or an object column whose cells that are not missing exist and are
    all numbers. *)
Definition str_accessor (c : column) : result (list pyobj) :=
  match c with
  | Object l =>
      if existsb is_PyStr l || forallb py_isna l then Ok l
      else Raise AttributeError
  | _ => Raise AttributeError
  end.

(** [.str.strip()]: a cell that is not a string becomes not-a-number. *)
Definition strip_cell (o : pyobj) : pyobj :=
  match o with
  | PyStr s => PyStr (strip s)
  | _ => PyFloat S754_nan
  end.

Definition str_strip (c : column) : result column :=
  result_bind (str_accessor c) (λ l, Ok (Object (map strip_cell l))).

Section Casting.
(** [float(s)] of Python on a string: [None] when it raises. *)
Variable float_of_str : string → option spec_float.

Definition float_of_cell (o : pyobj) : result spec_float :=
  match o with
  | PyNone => Ok S754_nan
  | PyInt z => py_float_of_int z
  | PyFloat f => Ok f
  | PyStr s =>
      match float_of_str s with
      | Some f => Ok f
      | None => Raise ValueError
      end
  end.

(** [.astype('float64')] *)
Definition astype_float64 (c : column) : result column :=
  match c with
  | Int64 l => Ok (Float64 (map float_of_Z l))
  | Float64 l => Ok (Float64 l)
  | Object l => result_bind (result_map float_of_cell l) (λ l', Ok (Float64 l'))
  end.
End Casting.

(** ** The store: tables of the database, Python objects, module globals *)

(** A table of the database: its columns in order, by name. *)
Definition sql_table := list (string * list value).

(** SQLite matches the names of tables and columns without regard to ASCII
    case, so the store keys a table by its name in lower case and keeps the
    name it was created with. *)
Definition lower_ascii (a : ascii) : ascii :=
  let n := nat_of_ascii a in
  if ((65 <=? n) && (n <=? 90))%nat then ascii_of_nat (n + 32) else a.

Fixpoint lower (s : string) : string :=
  match s with
  | EmptyString => EmptyString
  | String a s' => String (lower_ascii a) (lower s')
  end.

(** A Python value the two modules pass around.  A DataFrame is an object:
    the value is its address, and two names bound to one address see each
    other's updates. *)
Inductive pyval :=
  | VNone
  | VConnection
  | VFrame (l : nat)
  | VFunction (name : string).

Record state := {
  heap : gmap nat frame;
  globals : gmap string pyval;
  tables : gmap string (string * sql_table);
  root_handlers : bool
}.

Definition set_heap (h : gmap nat frame) (st : state) : state :=
  {| heap := h; globals := globals st; tables := tables st;
     root_handlers := root_handlers st |}.

Definition set_globals (g : gmap string pyval) (st : state) : state :=
  {| heap := heap st; globals := g; tables := tables st;
     root_handlers := root_handlers st |}.

Definition set_tables (t : gmap string (string * sql_table)) (st : state) : state :=
  {| heap := heap st; globals := globals st; tables := t;
     root_handlers := root_handlers st |}.

Definition set_root_handlers (b : bool) (st : state) : state :=
  {| heap := heap st; globals := globals st; tables := tables st;
     root_handlers := b |}.

(** A computation that may raise; what it did to the store before raising
    stays done. *)
Definition M (A : Type) : Type := state → result A * state.

#[global] Instance M_ret : MRet M := λ A a st, (Ok a, st).

#[global] Instance M_bind : MBind M := λ A B k m st,
  match m st with
  | (Ok a, st') => k a st'
  | (Raise e, st') => (Raise e, st')
  end.

Definition raise {A} (e : exn) : M A := λ st, (Raise e, st).

Definition lift {A} (r : result A) : M A := λ st, (r, st).

(** A name that is not local to the function is looked up in the module. *)
Definition load_global (name : string) : M pyval := λ st,
  match globals st !! name with
  | Some v => (Ok v, st)
  | None => (Raise NameError, st)
  end.

Definition store_global (name : string) (v : pyval) : M unit := λ st,
  (Ok tt, set_globals (<[name := v]> (globals st)) st).

(** A new DataFrame object. *)
Definition alloc (df : frame) : M pyval := λ st,
  let l := fresh (dom (heap st)) in
  (Ok (VFrame l), set_heap (<[l := df]> (heap st)) st).

(** [v[name]]: a connection, a function or None cannot be subscripted. *)
Definition getitem (v : pyval) (name : string) : M column := λ st,
  match v with
  | VFrame l =>
      match heap st !! l with
      | Some df =>
          match get_col df name with
          | Some c => (Ok c, st)
          | None => (Raise KeyError, st)
          end
      | None => (Raise KeyError, st)
      end
  | _ => (Raise TypeError, st)
  end.

(** [v[name] = c], in place. *)
Definition setitem (v : pyval) (name : string) (c : column) : M unit := λ st,
  match v with
  | VFrame l =>
      match heap st !! l with
      | Some df => (Ok tt, set_heap (<[l := set_col df name c]> (heap st)) st)
      | None => (Raise KeyError, st)
      end
  | _ => (Raise TypeError, st)
  end.

(** [v.fillna(0, inplace=True)] *)
Definition fillna_inplace (v : pyval) : M unit := λ st,
  match v with
  | VFrame l =>
      match heap st !! l with
      | Some df =>
          (Ok tt,
           set_heap (<[l := map (λ nc, (nc.1, fillna_zero nc.2)) df]> (heap st)) st)
      | None => (Raise KeyError, st)
      end
  | _ => (Raise AttributeError, st)
  end.

(** [v.head()]: a new frame of the first five rows. *)
Definition take_cells (n : nat) (c : column) : column :=
  match c with
  | Int64 l => Int64 (take n l)
  | Float64 l => Float64 (take n l)
  | Object l => Object (take n l)
  end.

Definition head (v : pyval) : M pyval := λ st,
  match v with
  | VFrame l =>
      match heap st !! l with
      | Some df => alloc (map (λ nc, (nc.1, take_cells 5 nc.2)) df) st
      | None => (Raise KeyError, st)
      end
  | _ => (Raise AttributeError, st)
  end.

(** ** [clean_data] *)

Section Cleaning.
Variable float_of_str : string → option spec_float.

(** [df[name] = df[name].str.strip()] *)
Definition strip_column (df : pyval) (name : string) : M unit :=
  c ← getitem df name;
  c' ← lift (str_strip c);
  setitem df name c'.

(** Lines 82 to 89, on the parameter [df]. *)
Definition cast_fill_strip (df : pyval) : M unit :=
  c ← getitem df "Volume";
  c' ← lift (astype_float64 float_of_str c);
  setitem df "Volume" c';;
  fillna_inplace df;;
  strip_column df "VendorName";;
  strip_column df "Description".

(** [vendor_sales_summary[name]]: the name is not a parameter of
    [clean_data] and not assigned in it, so it is a module global. *)
Definition summary_column (name : string) : M column :=
  g ← load_global "vendor_sales_summary";
  getitem g name.

(** [vendor_sales_summary[name] = c] *)
Definition set_summary_column (name : string) (c : column) : M unit :=
  g ← load_global "vendor_sales_summary";
  setitem g name c.

(** Lines 92 to 95, on the global [vendor_sales_summary].  The right-hand
    side of an assignment is evaluated before its target. *)
Definition add_ratio_columns : M unit :=
  a ← summary_column "TotalSalesDollars";
  b ← summary_column "TotalPurchaseDollars";
  c ← lift (col_sub a b);
  set_summary_column "GrossProfit" c;;
  a ← summary_column "GrossProfit";
  b ← summary_column "TotalSalesDollars";
  q ← lift (col_div a b);
  c ← lift (col_mul_int q 100);
  set_summary_column "ProfitMargin" c;;
  a ← summary_column "TotalSalesQuantity";
  b ← summary_column "TotalPurchaseQuantity";
  c ← lift (col_div a b);
  set_summary_column "StockTurnover" c;;
  a ← summary_column "TotalSalesDollars";
  b ← summary_column "TotalPurchaseDollars";
  c ← lift (col_div a b);
  set_summary_column "SalesToPurchaseRatio" c.

Definition clean_data (df : pyval) : M pyval :=
  cast_fill_strip df;;
  add_ratio_columns;;
  mret df.
End Cleaning.

(** ** [DataFrame.to_sql]: from a frame to a table *)

Definition value_of_cell (o : pyobj) : result value :=
  match o with
  | PyNone => Ok Null
  | PyInt z => if in_int64 z then Ok (Int z) else Raise OverflowError
  | PyFloat f => Ok (if is_nan f then Null else Real f)
  | PyStr s => Ok (Text s)
  end.

(** [index = False]: the columns of the frame in their order, and no other. *)
Definition table_of_frame (df : frame) : result sql_table :=
  result_map (λ nc : string * column,
    result_bind (result_map value_of_cell (cells nc.2)) (λ vs, Ok (nc.1, vs))) df.

(** [ingest_db(df, table_name, engine)]:
    [df.to_sql(table_name, con = engine, if_exists = 'replace', index = False)] *)
Definition ingest_db (df : pyval) (table_name : string) (engine : pyval) : M unit :=
  match df, engine with
  | VFrame l, VConnection => λ st,
      match heap st !! l with
      | Some f =>
          match table_of_frame f with
          | Ok t =>
              (Ok tt,
               set_tables (<[lower table_name := (table_name, t)]> (tables st)) st)
          | Raise e => (Raise e, st)
          end
      | None => (Raise KeyError, st)
      end
  | VFrame _, _ => raise TypeError
  | _, _ => raise AttributeError
  end.

(* ===================================================================== *)
(** * Part III: the module [get_vendor_summary.py]                        *)
(* ===================================================================== *)

(** ** Reading the base tables the query names *)

Fixpoint table_column (t : sql_table) (name : string) : option (list value) :=
  match t with
  | [] => None
  | (n, c) :: t' =>
      if String.eqb (lower n) (lower name) then Some c else table_column t' name
  end.

Definition table_height (t : sql_table) : nat :=
  match t with
  | [] => 0%nat
  | (_, c) :: _ => length c
  end.

Definition cell (c : list value) (i : nat) : value := nth i c Null.

Definition rows_of {R} (t : sql_table) (row : nat → R) : list R :=
  map row (seq 0 (table_height t)).

Definition read_purchases (t : sql_table) : option (list purchase) :=
  vn ← table_column t "VendorNumber";
  nm ← table_column t "VendorName";
  br ← table_column t "Brand";
  de ← table_column t "Description";
  pr ← table_column t "PurchasePrice";
  qu ← table_column t "Quantity";
  do ← table_column t "Dollars";
  Some (rows_of t (λ i,
    {| p_VendorNumber := cell vn i; p_VendorName := cell nm i;
       p_Brand := cell br i; p_Description := cell de i;
       p_PurchasePrice := cell pr i; p_Quantity := cell qu i;
       p_Dollars := cell do i |})).

Definition read_purchase_prices (t : sql_table) : option (list purchase_price) :=
  br ← table_column t "Brand";
  pr ← table_column t "Price";
  vo ← table_column t "Volume";
  Some (rows_of t (λ i,
    {| pp_Brand := cell br i; pp_Price := cell pr i; pp_Volume := cell vo i |})).

Definition read_vendor_invoice (t : sql_table) : option (list invoice) :=
  vn ← table_column t "VendorNumber";
  fr ← table_column t "Freight";
  Some (rows_of t (λ i,
    {| vi_VendorNumber := cell vn i; vi_Freight := cell fr i |})).

Definition read_Sales (t : sql_table) : option (list sale) :=
  vn ← table_column t "VendorNo";
  br ← table_column t "Brand";
  qu ← table_column t "SalesQuantity";
  do ← table_column t "SalesDollars";
  pr ← table_column t "SalesPrice";
  ta ← table_column t "ExciseTax";
  Some (rows_of t (λ i,
    {| s_VendorNo := cell vn i; s_Brand := cell br i;
       s_SalesQuantity := cell qu i; s_SalesDollars := cell do i;
       s_SalesPrice := cell pr i; s_ExciseTax := cell ta i |})).

(** The four tables as the query sees them; [None] when a table or a column
    it names does not exist. *)
Definition open_database (ts : gmap string (string * sql_table)) : option database :=
  p ← ts !! lower "purchases" ≫= λ t, read_purchases t.2;
  pp ← ts !! lower "purchase_prices" ≫= λ t, read_purchase_prices t.2;
  vi ← ts !! lower "vendor_invoice" ≫= λ t, read_vendor_invoice t.2;
  s ← ts !! lower "Sales" ≫= λ t, read_Sales t.2;
  Some {| purchases := p; purchase_prices := pp; vendor_invoice := vi; Sales := s |}.

Section Script.
Variable sql_sum : list value → option value.
Variable float_of_str : string → option spec_float.

(** [create_vendor_summary(conn)], read as the function its statements
    make: the query is run on the connection and its rows are returned as
    a new frame. *)
Definition create_vendor_summary (conn : pyval) : M pyval :=
  match conn with
  | VConnection => λ st,
      match open_database (tables st) ≫= summary_query sql_sum with
      | Some rows => alloc (read_sql_query rows) st
      | None => (Raise OperationalError, st)
      end
  | _ => raise AttributeError
  end.

(** The block under [if __name__ == '__main__':], lines 102 to 114.
    [logging.info] changes nothing of the store. *)
Definition main_block : M unit :=
  store_global "conn" VConnection;;
  conn ← load_global "conn";
  r ← create_vendor_summary conn;
  store_global "summary_df" r;;
  v ← load_global "summary_df";
  head v;;
  conn ← load_global "conn";
  r ← clean_data float_of_str conn;
  store_global "clean_df" r;;
  f ← load_global "clean_data";
  head f;;
  load_global "ingest";;
  raise AttributeError.

(** [logging.basicConfig(filname=..., level=..., format=..., filemode=...)]:
    the keyword [filname] is not one the function knows.  It only looks at
    its keywords when the root logger has no handler yet. *)
Definition basicConfig_filname : M unit := λ st,
  if root_handlers st then (Ok tt, st) else (Raise ValueError, st).

(** [from ingestion_db import ingest_db]: the imported module configures
    logging when it is loaded, which gives the root logger its handler; its
    other globals stay in its own name space. *)
Definition import_ingest_db : M unit := λ st,
  (Ok tt,
   set_globals (<["ingest_db" := VFunction "ingest_db"]> (globals st))
     (set_root_handlers true st)).

(** The statements of the module in order. *)
Definition module_body : M unit :=
  import_ingest_db;;
  basicConfig_filname;;
  store_global "create_vendor_summary" (VFunction "create_vendor_summary");;
  store_global "clean_data" (VFunction "clean_data");;
  main_block.

(** ** The layout of the source file

    Python compiles a module before it runs any of it.  A logical line may
    be indented deeper than the line before only when that line opens a
    block (ends with a colon); a line that opens a block must be followed by
    a deeper one; a shallower line must return to an enclosing depth. *)
Record source_line := {
  line_no : nat;
  indent : nat;
  opens_block : bool
}.

Definition L (n i : nat) (o : bool) : source_line :=
  {| line_no := n; indent := i; opens_block := o |}.

(** The logical lines of [get_vendor_summary.py]: the line they start on
    and the column of their first character. *)
Definition source_lines : list source_line := [
  L 1 0 false; L 2 0 false; L 3 0 false; L 4 0 false;
  L 6 0 false;
  L 13 0 true; L 14 4 false; L 15 8 false;
  L 76 0 false;
  L 79 0 true; L 80 4 false; L 82 4 false; L 85 4 false; L 88 4 false;
  L 89 4 false; L 92 4 false; L 93 4 false; L 94 4 false; L 95 4 false;
  L 97 4 false;
  L 100 0 true; L 102 4 false; L 104 4 false; L 105 4 false;
  L 106 4 false; L 108 4 false; L 109 4 false; L 110 4 false;
  L 112 4 false; L 113 4 false; L 114 4 false ]%nat.

Fixpoint dedent (col : nat) (stack : list nat) : list nat :=
  match stack with
  | d :: stack' => if (col <? d)%nat then dedent col stack' else stack
  | [] => []
  end.

(** [stack] holds the enclosing depths, the current one first; [opened]
    says whether the line before opened a block.  The answer is the line
    of the first layout error, if any. *)
Fixpoint check_layout (ls : list source_line) (stack : list nat)
    (opened : bool) : option nat :=
  match ls with
  | [] => if opened then Some 0%nat else None
  | l :: ls' =>
      let top := hd 0%nat stack in
      if opened then
        if (top <? indent l)%nat
        then check_layout ls' (indent l :: stack) (opens_block l)
        else Some (line_no l)
      else if (top <? indent l)%nat then Some (line_no l)
      else
        let stack' := dedent (indent l) stack in
        if (hd 0%nat stack' =? indent l)%nat
        then check_layout ls' stack' (opens_block l)
        else Some (line_no l)
  end.

Definition compile_module : M unit :=
  match check_layout source_lines [0%nat] false with
  | None => mret tt
  | Some _ => raise IndentationError
  end.

(** [python get_vendor_summary.py] *)
Definition run_get_vendor_summary : M unit :=
  compile_module;;
  module_body.
End Script.

(* ===================================================================== *)
(** * Part IV: the module [ingestion_db.py]                               *)
(* ===================================================================== *)

(** ['.csv' in file] *)
Fixpoint contains (needle hay : string) {struct hay} : bool :=
  if String.prefix needle hay then true
  else
    match hay with
    | EmptyString => false
    | String _ hay' => contains needle hay'
    end.

(** [file[:-4]]: all but the last four characters, nothing of a shorter
    name. *)
Definition drop_last4 (file : string) : string :=
  String.substring 0 (String.length file - 4) file.

Section Loader.
(** [pandas.read_csv] on a path and the bytes found there. *)
Variable read_csv : string → string → result frame.

(** The body of the loop of [load_raw_data] for one entry of the
    directory: its name and its bytes. *)
Definition load_file (entry : string * string) : M unit :=
  let file := entry.1 in
  if contains ".csv" file then
    f ← lift (read_csv (String.append "data/" file) entry.2);
    df ← alloc f;
    engine ← load_global "engine";
    ingest_db df (drop_last4 file) engine
  else mret tt.

Fixpoint load_files (entries : list (string * string)) : M unit :=
  match entries with
  | [] => mret tt
  | entry :: rest => load_file entry;; load_files rest
  end.

(** [load_raw_data()]: [data] is what [os.listdir('data')] finds, in its
    order (the directory exists).  Timing and logging change nothing of
    the store. *)
Definition load_raw_data (data : list (string * string)) : M unit :=
  load_files data.

(** The statements of the module before the loader runs: the root logger
    gets its handler and [engine] is bound. *)
Definition ingestion_db_body : M unit :=
  (λ st, (Ok tt, set_root_handlers true st));;
  store_global "engine" VConnection;;
  store_global "ingest_db" (VFunction "ingest_db");;
  store_global "load_raw_data" (VFunction "load_raw_data").

(** [python ingestion_db.py] *)
Definition run_ingestion_db (data : list (string * string)) : M unit :=
  ingestion_db_body;;
  load_raw_data data.
End Loader.

(* ===================================================================== *)
(** * Part V: notions the theorems are stated with                        *)
(* ===================================================================== *)





(** Every column of the frame has [n] cells. *)
Definition frame_height (df : frame) (n : nat) : Prop :=
  Forall (λ nc : string * column, length (cells nc.2) = n) df.

Definition is_numeric (c : column) : bool :=
  match c with Object _ => false | _ => true end.

(** The four columns [clean_data] computes. *)
Definition ratio_columns : list string :=
  ["GrossProfit"; "ProfitMargin"; "StockTurnover"; "SalesToPurchaseRatio"].

(** The four columns that come from SalesSummary. *)
Definition sales_columns : list string :=
  ["TotalSalesQuantity"; "TotalSalesDollars"; "TotalSalesPrice"; "TotalExciseTax"].

(** The cell in row [i] of a column is a zero. *)
Definition zero_at (c : column) (i : nat) : Prop :=
  ∃ x, cells c !! i = Some x ∧ py_is_zero x = true.

(** The cell in row [i] of a column is missing. *)
Definition missing_at (c : column) (i : nat) : Prop :=
  ∃ x, cells c !! i = Some x ∧ py_isna x = true.

(** Stores that differ at most in the columns [names] of their frames (and
    in frames the second has in addition). *)
Definition agree_off (names : list string) (st st' : state) : Prop :=
  globals st' = globals st ∧
  tables st' = tables st ∧
  ∀ l df, heap st !! l = Some df →
    ∃ df', heap st' !! l = Some df' ∧
      ∀ n, ¬ In n names → get_col df' n = get_col df n.

(** A computation that leaves every store it runs in equal off [names]. *)
Definition keeps {A} (names : list string) (m : M A) : Prop :=
  ∀ st, agree_off names st (m st).2.

(** What the loader writes for one entry of the directory, told without the
    store: nothing for a name without the marker, the table and its key for
    a file that is read and converted, the exception otherwise. *)
Definition write_of (read_csv : string → string → result frame)
    (entry : string * string) : result (option (string * (string * sql_table))) :=
  if contains ".csv" entry.1 then
    result_bind (read_csv (String.append "data/" entry.1) entry.2) (λ f,
      result_bind (table_of_frame f) (λ t,
        Ok (Some (lower (drop_last4 entry.1), (drop_last4 entry.1, t)))))
  else Ok None.

(** The writes of a run up to its first exception, and how the run ends. *)
Fixpoint written (read_csv : string → string → result frame)
    (entries : list (string * string))
    : list (string * (string * sql_table)) * result unit :=
  match entries with
  | [] => ([], Ok tt)
  | entry :: rest =>
      match write_of read_csv entry with
      | Ok None => written read_csv rest
      | Ok (Some w) => (w :: (written read_csv rest).1, (written read_csv rest).2)
      | Raise e => ([], Raise e)
      end
  end.

Definition apply_writes (ws : list (string * (string * sql_table)))
    (ts : gmap string (string * sql_table)) : gmap string (string * sql_table) :=
  fold_left (λ m kv, <[kv.1 := kv.2]> m) ws ts.

(* ===================================================================== *)
(** * Part VI: example data                                               *)
(* ===================================================================== *)

Definition fadd : spec_float → spec_float → spec_float := SFadd 53 1024.

(** An instance of the aggregate SUM: NULL for a group without a value, the
    exact sum of integers (aborting outside 64 bits), and otherwise the
    doubles added from left to right, a text counting as 0.0. *)
Definition sum_cells (vs : list value) : option value :=
  let vs' := List.filter (λ v, negb (is_null v)) vs in
  match vs' with
  | [] => Some Null
  | _ =>
      if forallb is_Int vs' then
        let s := fold_left Z.add (map int_of_value vs') 0 in
        if in_int64 s then Some (Int s) else None
      else
        Some (Real (fold_left fadd
          (map (λ v, if is_Text v then S754_zero false else float_of_value v) vs')
          (S754_zero false)))
  end.

(** An instance of [float] on strings: right on strings of decimal digits,
    raising on all others. *)
Definition digit_value (a : ascii) : option Z :=
  let n := nat_of_ascii a in
  if ((48 <=? n) && (n <=? 57))%nat then Some (Z.of_nat n - 48) else None.

Fixpoint digits_value (acc : Z) (s : string) : option Z :=
  match s with
  | EmptyString => Some acc
  | String a s' =>
      match digit_value a with
      | Some d => digits_value (10 * acc + d) s'
      | None => None
      end
  end.

Definition float_of_digits (s : string) : option spec_float :=
  match s with
  | EmptyString => None
  | _ => option_map float_of_Z (digits_value 0 s)
  end.

(** An instance of [read_csv]: a file of one column [c] and one row, the
    cell holding the bytes of the file. *)
Definition read_one_cell (path bytes : string) : result frame :=
  Ok [("c", Object [PyStr bytes])].

Definition empty_state : state :=
  {| heap := ∅; globals := ∅; tables := ∅; root_handlers := false |}.

(** A purchase line. *)
Definition buy (vendor brand : Z) (price qty dollars : Z) : purchase :=
  {| p_VendorNumber := Int vendor; p_VendorName := Text "ACME ";
     p_Brand := Int brand; p_Description := Text " Gin";
     p_PurchasePrice := Int price; p_Quantity := Int qty;
     p_Dollars := Int dollars |}.



(** A sale. *)
Definition sold (vendor brand : Z) (qty dollars price tax : Z) : sale :=
  {| s_VendorNo := Int vendor; s_Brand := Int brand;
     s_SalesQuantity := Int qty; s_SalesDollars := Int dollars;
     s_SalesPrice := Int price; s_ExciseTax := Int tax |}.

(** Two vendors; the first sold of what it bought, the second sold nothing
    and has a purchase line with a price of zero. *)
Definition db_example : database :=
  {| purchases := [buy 1 10 5 20 100; buy 2 11 4 3 12; buy 2 11 0 1 0];
     purchase_prices := [{| pp_Brand := Int 10; pp_Price := Int 9;
                            pp_Volume := Text "750" |};
                         {| pp_Brand := Int 11; pp_Price := Int 7;
                            pp_Volume := Text "1000" |}];
     vendor_invoice := [{| vi_VendorNumber := Int 1; vi_Freight := Int 3 |}];
     Sales := [sold 1 10 15 150 10 2] |}.

(** The summary of [db_example] as [create_vendor_summary] returns it. *)
Definition summary_example : frame :=
  Eval vm_compute in
    match summary_query sum_cells db_example with
    | Some rows => read_sql_query rows
    | None => []
    end.

(** A table of other figures. *)
Definition other_table : frame :=
  [ ("TotalSalesQuantity", Int64 [7]);
    ("TotalSalesDollars", Int64 [70]);
    ("TotalPurchaseQuantity", Int64 [5]);
    ("TotalPurchaseDollars", Int64 [50]) ].

(** The store as the module's own main block leaves it before it cleans: the
    summary is bound to [summary_df]; no name [vendor_sales_summary] exists. *)
Definition st_main : state :=
  {| heap := {[ 0%nat := summary_example ]};
     globals := {[ "summary_df" := VFrame 0 ]};
     tables := ∅; root_handlers := true |}.

(** A store in which [vendor_sales_summary] names another table. *)
Definition st_other : state :=
  {| heap := {[ 0%nat := summary_example; 1%nat := other_table ]};
     globals := {[ "vendor_sales_summary" := VFrame 1 ]};
     tables := ∅; root_handlers := true |}.

(** A store in which [vendor_sales_summary] names the summary itself. *)
Definition st_alias : state :=
  {| heap := {[ 0%nat := summary_example ]};
     globals := {[ "vendor_sales_summary" := VFrame 0 ]};
     tables := ∅; root_handlers := true |}.

(** [db_example] with the name of the second vendor missing, and its summary
    in a store where [vendor_sales_summary] names it. *)
Definition db_null_name : database :=
  {| purchases :=
       [buy 1 10 5 20 100;
        {| p_VendorNumber := Int 2; p_VendorName := Null; p_Brand := Int 11;
           p_Description := Text " Rum"; p_PurchasePrice := Int 4;
           p_Quantity := Int 3; p_Dollars := Int 12 |}];
     purchase_prices := purchase_prices db_example;
     vendor_invoice := vendor_invoice db_example;
     Sales := Sales db_example |}.

Definition summary_null_name : frame :=
  Eval vm_compute in
    match summary_query sum_cells db_null_name with
    | Some rows => read_sql_query rows
    | None => []
    end.

Definition st_null_name : state :=
  {| heap := {[ 0%nat := summary_null_name ]};
     globals := {[ "vendor_sales_summary" := VFrame 0 ]};
     tables := ∅; root_handlers := true |}.

(** An instance of [read_csv] that raises on a file without bytes, as pandas
    does (its EmptyDataError is a ValueError), and reads any other file as
    [read_one_cell] does. *)
Definition read_unless_empty (path bytes : string) : result frame :=
  if String.eqb bytes "" then Raise ValueError else read_one_cell path bytes.

(** [a] does not come before [b] in the ascending order of the key. *)
Definition not_below {A} (key : A → value) (a b : A) : Prop :=
  sql_compare (key a) (key b) ≠ Lt.

(** The grouping key of PurchaseSummary as a row of the result shows it. *)
Definition row_key (o : summary_row) : list value :=
  [VendorNumber o; VendorName o; Brand o; Description o; PurchasePrice o;
   ActualPrice o; Volume o].


(** The rows and the sub-aggregates of the summary of [db_example]. *)
Definition rows_example : list summary_row :=
  Eval vm_compute in
    match summary_query sum_cells db_example with
    | Some rows => rows
    | None => []
    end.

Definition ss_example : list ss_row :=
  Eval vm_compute in
    match SalesSummary sum_cells db_example with
    | Some ss => ss
    | None => []
    end.

Definition fs_example : list fs_row :=
  Eval vm_compute in
    match FreightSummary sum_cells db_example with
    | Some fs => fs
    | None => []
    end.

(** The groups [gs] are those of the rows [l]: no two groups have keys that
    compare equal, every group holds the rows of [l] with its key in their
    order, and every row of [l] has its group. *)
Definition grouped {A} (sk : A → A → bool) (gs : list (A * list A))
    (l : list A) : Prop :=
  ForallOrdPairs (λ a b, sk a.1 b.1 = false) gs ∧
  Forall (λ g, members g = List.filter (sk g.1) l) gs ∧
  Forall (λ y, Exists (λ g, sk g.1 y = true) gs) l.


(** A store holding a table whose Volume is not a number. *)
Definition st_bad_volume : state :=
  {| heap := {[ 0%nat := [("Volume", Object [PyStr "750"; PyStr "n/a"])] ]};
     globals := ∅; tables := ∅; root_handlers := true |}.

(** A store whose database holds the four base tables, one line in each. *)
Definition st_database : state :=
  {| heap := ∅; globals := ∅;
     tables :=
       {[ "purchases" :=
            ("purchases",
             [("VendorNumber", [Int 1]); ("VendorName", [Text "ACME "]);
              ("Brand", [Int 10]); ("Description", [Text " Gin"]);
              ("PurchasePrice", [Int 5]); ("Quantity", [Int 20]);
              ("Dollars", [Int 100])]);
          "purchase_prices" :=
            ("purchase_prices",
             [("Brand", [Int 10]); ("Price", [Int 9]); ("Volume", [Text "750"])]);
          "vendor_invoice" :=
            ("vendor_invoice", [("VendorNumber", [Int 1]); ("Freight", [Int 3])]);
          "sales" :=
            ("Sales",
             [("VendorNo", [Int 1]); ("Brand", [Int 10]);
              ("SalesQuantity", [Int 15]); ("SalesDollars", [Int 150]);
              ("SalesPrice", [Int 10]); ("ExciseTax", [Int 2])]) ]};
     root_handlers := true |}.

(** The same store without the table of the sales. *)
Definition st_no_sales : state :=
  set_tables (delete "sales" (tables st_database)) st_database.

(* ===================================================================== *)
(** * Part VII: proofs                                                    *)
(* ===================================================================== *)

(** ** Cells that compare equal *)

Lemma string_compare_refl (s : string) : String.compare s s = Eq.
Proof.
  pose proof (String.compare_antisym s s) as H.
  destruct (String.compare s s); simpl in H; congruence.
Qed.

Lemma num_compare_Eq_trans (x y z : num) :
  num_compare x y = Eq → num_compare x z = Eq → num_compare y z = Eq.
Proof.
  destruct x, y, z; simpl; try discriminate; auto.
  rewrite <- !Qeq_alt. intros Hxy Hxz. rewrite <- Hxy. exact Hxz.
Qed.

Lemma sql_compare_Eq_trans (a b c : value) :
  sql_compare a b = Eq → sql_compare a c = Eq → sql_compare b c = Eq.
Proof.
  unfold sql_compare.
  destruct a as [|x|f|s], b as [|y|g|t], c as [|z|h|u];
    cbn [num_of]; try discriminate; auto;
    try (intros H1 H2; apply String.compare_eq_iff in H1;
         apply String.compare_eq_iff in H2; subst; apply string_compare_refl);
    repeat match goal with
    | |- context [float_num ?f] => destruct (float_num f)
    end; try discriminate; auto; apply num_compare_Eq_trans.
Qed.


(** What [> 0] says of a numeric cell. *)
Lemma sql_gt_zero_numeric (v : value) (q : Q) :
  sql_gt_zero v = true → num_of v = Some (Fin q) → (0 < q)%Q.
Proof.
  unfold sql_gt_zero, sql_compare. intros H Hq.
  apply andb_true_iff in H as [_ H].
  destruct v as [|z|f|s]; cbn [num_of] in *; try discriminate.
  - injection Hq as <-. cbn [num_compare] in H.
    apply Qgt_alt. change 0%Q with (inject_Z 0).
    by destruct (Qcompare (inject_Z z) (inject_Z 0)).
  - rewrite Hq in H. cbn [num_compare] in H.
    apply Qgt_alt. change 0%Q with (inject_Z 0).
    by destruct (Qcompare q (inject_Z 0)).
Qed.

(** ** Grouping, joining and ordering *)

Section RelationalFacts.
Context {A B : Type}.



Variable same_key : A → A → bool.

Lemma insert_group_Forall_rep (P : A → Prop) (x : A) (gs : list (A * list A)) :
  Forall (λ g, P g.1) gs → P x → Forall (λ g, P g.1) (insert_group same_key x gs).
Proof.
  intros Hgs Hx. induction Hgs as [|[r m] gs Hr Hgs IH]; simpl.
  - constructor; auto.
  - destruct (same_key r x); constructor; auto.
Qed.

Lemma insert_group_distinct (x : A) (gs : list (A * list A)) :
  ForallOrdPairs (λ a b, same_key a.1 b.1 = false) gs →
  ForallOrdPairs (λ a b, same_key a.1 b.1 = false) (insert_group same_key x gs).
Proof.
  induction 1 as [|[r m] gs Hr Hgs IH]; simpl.
  - constructor; [constructor | constructor].
  - destruct (same_key r x) eqn:E; constructor; auto.
    apply (insert_group_Forall_rep (λ y, same_key r y = false)); auto.
Qed.


Lemma group_by_rep (P : A → Prop) (l : list A) :
  Forall P l → Forall (λ g, P g.1) (group_by same_key l).
Proof.
  unfold group_by. intros Hl.
  assert (∀ gs, Forall (λ g : A * list A, P g.1) gs →
    Forall (λ g, P g.1) (fold_left (λ gs x, insert_group same_key x gs) l gs)) as H.
  { induction Hl as [|x l Hx Hl IH]; intros gs Hgs; simpl; auto.
    apply IH, insert_group_Forall_rep; auto. }
  apply H. constructor.
Qed.



Lemma left_join_In (on : A → B → bool) (ls : list A) (rs : list B)
    (x : A * option B) :
  In x (left_join on ls rs) →
  In x.1 ls ∧
  match x.2 with
  | Some r => In r rs ∧ on x.1 r = true
  | None => True
  end.
Proof.
  unfold left_join. rewrite in_flat_map. intros (l & Hl & Hx).
  destruct (List.filter (on l) rs) as [|r ms] eqn:E.
  - destruct Hx as [<-|[]]. simpl. auto.
  - apply in_map_iff in Hx as (r' & <- & Hr'). simpl. split; auto.
    rewrite <- E in Hr'. apply filter_In in Hr'. exact Hr'.
Qed.

Lemma insert_desc_perm (key : A → value) (x : A) (l : list A) :
  Permutation (insert_desc key x l) (x :: l).
Proof.
  induction l as [|y l IH]; simpl; auto.
  destruct (sql_compare (key x) (key y)); auto.
  rewrite IH. apply perm_swap.
Qed.

Lemma order_by_desc_perm (key : A → value) (l : list A) :
  Permutation (order_by_desc key l) l.
Proof.
  induction l as [|x l IH]; simpl; auto.
  rewrite insert_desc_perm. auto.
Qed.

End RelationalFacts.


Section QueryFacts.
Variable sql_sum : list value → option value.










Lemma summary_query_inv db rows :
  summary_query sql_sum db = Some rows →
  ∃ fs ps ss,
    FreightSummary sql_sum db = Some fs ∧
    PurchaseSummary sql_sum db = Some ps ∧
    SalesSummary sql_sum db = Some ss ∧
    rows = order_by_desc TotalPurchaseDollars
             (map select_row
                (left_join on_freight (left_join on_sales ps ss) fs)).
Proof.
  unfold summary_query. intros H.
  destruct (FreightSummary sql_sum db) as [fs|]; [|discriminate].
  destruct (PurchaseSummary sql_sum db) as [ps|]; [|discriminate].
  destruct (SalesSummary sql_sum db) as [ss|]; [|discriminate].
  simpl in H. inversion H. eauto 10.
Qed.

End QueryFacts.


Section PriceFacts.
Variable sql_sum : list value → option value.




End PriceFacts.




(** ** Running a computation step by step *)

Lemma run_bind {A B} (m : M A) (k : A → M B) (st : state) :
  (m ≫= k) st =
  match m st with
  | (Ok a, st') => k a st'
  | (Raise e, st') => (Raise e, st')
  end.
Proof. reflexivity. Qed.

Lemma bind_Ok_inv {A B} (m : M A) (k : A → M B) (st st' : state) (b : B) :
  (m ≫= k) st = (Ok b, st') →
  ∃ a st1, m st = (Ok a, st1) ∧ k a st1 = (Ok b, st').
Proof.
  rewrite run_bind. destruct (m st) as [[a|e] st1]; [eauto|discriminate].
Qed.

(** ** The loader *)

Lemma apply_writes_union ws ts :
  apply_writes ws ts = list_to_map (rev ws) ∪ ts.
Proof.
  unfold apply_writes. revert ts.
  induction ws as [|[k v] ws IH]; intros ts; simpl.
  - by rewrite (left_id_L ∅ (∪)).
  - rewrite IH, list_to_map_app. simpl.
    rewrite insert_empty, insert_union_singleton_l.
    by rewrite (assoc_L (∪)).
Qed.

Lemma apply_writes_twice ws ts :
  apply_writes ws (apply_writes ws ts) = apply_writes ws ts.
Proof.
  rewrite !apply_writes_union.
  by rewrite (assoc_L (∪)), (idemp_L (∪)).
Qed.

Section LoaderFacts.
Variable read_csv : string → string → result frame.

Lemma load_file_written entry st :
  globals st !! "engine" = Some VConnection →
  globals (load_file read_csv entry st).2 = globals st ∧
  match write_of read_csv entry with
  | Ok None =>
      (load_file read_csv entry st).1 = Ok tt ∧
      tables (load_file read_csv entry st).2 = tables st
  | Ok (Some w) =>
      (load_file read_csv entry st).1 = Ok tt ∧
      tables (load_file read_csv entry st).2 = <[w.1 := w.2]> (tables st)
  | Raise e =>
      (load_file read_csv entry st).1 = Raise e ∧
      tables (load_file read_csv entry st).2 = tables st
  end.
Proof.
  intros Hengine. unfold load_file, write_of.
  destruct (contains ".csv" entry.1); [|by simpl].
  unfold mbind, M_bind, lift, alloc, load_global, ingest_db.
  destruct (read_csv _ _) as [f|e]; simpl; [|done].
  rewrite Hengine. simpl. rewrite lookup_insert_eq.
  destruct (table_of_frame f) as [t|e]; simpl; done.
Qed.

Lemma load_files_written entries st :
  globals st !! "engine" = Some VConnection →
  (load_files read_csv entries st).1 = (written read_csv entries).2 ∧
  tables (load_files read_csv entries st).2
    = apply_writes (written read_csv entries).1 (tables st).
Proof.
  revert st. induction entries as [|entry rest IH]; intros st Hengine.
  - by simpl.
  - cbn [load_files written]. rewrite run_bind.
    destruct (load_file_written entry st Hengine) as [Hg Hw].
    destruct (load_file read_csv entry st) as [r st1]. simpl in Hg, Hw.
    rewrite <- Hg in Hengine.
    destruct (write_of read_csv entry) as [[w|]|e]; destruct Hw as [-> Hw].
    + destruct (IH st1 Hengine) as [-> ->]. simpl. by rewrite Hw.
    + destruct (IH st1 Hengine) as [-> ->]. by rewrite Hw.
    + simpl. by rewrite Hw.
Qed.

Lemma run_ingestion_db_written data st :
  (run_ingestion_db read_csv data st).1 = (written read_csv data).2 ∧
  tables (run_ingestion_db read_csv data st).2
    = apply_writes (written read_csv data).1 (tables st).
Proof.
  unfold run_ingestion_db, ingestion_db_body, load_raw_data.
  rewrite !run_bind. unfold store_global. simpl.
  match goal with
  | |- context [load_files read_csv data ?s] =>
      destruct (load_files_written data s) as [H1 H2]; [|rewrite H1, H2]
  end.
  - simpl. do 2 (rewrite lookup_insert_ne by done). by rewrite lookup_insert_eq.
  - by simpl.
Qed.

(** C9: running the loader a second time on the same directory leaves
    every table of the database as the first run left it, and ends the
    same way. *)
Theorem load_twice_same data st :
  tables (run_ingestion_db read_csv data
            (run_ingestion_db read_csv data st).2).2
    = tables (run_ingestion_db read_csv data st).2 ∧
  (run_ingestion_db read_csv data
     (run_ingestion_db read_csv data st).2).1
    = (run_ingestion_db read_csv data st).1.
Proof.
  split.
  - destruct (run_ingestion_db_written data
                (run_ingestion_db read_csv data st).2) as [_ ->].
    destruct (run_ingestion_db_written data st) as [_ ->].
    apply apply_writes_twice.
  - destruct (run_ingestion_db_written data
                (run_ingestion_db read_csv data st).2) as [-> _].
    by destruct (run_ingestion_db_written data st) as [-> _].
Qed.
End LoaderFacts.

(** C8 fails on the code: the name [sales.csv.backup] contains the marker
    [.csv], and the loader writes its contents under the name cut by four
    characters, [sales.csv.ba]; no table named after the file without an
    extension exists afterwards. *)
Lemma backup_name_cut_short :
  let st := (run_ingestion_db read_one_cell
               [("sales.csv.backup", "x")] empty_state).2 in
  contains ".csv" "sales.csv.backup" = true ∧
  tables st !! "sales.csv.ba" = Some ("sales.csv.ba", [("c", [Text "x"])]) ∧
  tables st !! "sales.csv" = None ∧
  tables st !! "sales" = None.
Proof. vm_compute. auto. Qed.


(** ** Columns of a frame *)

Lemma get_col_set_col (df : frame) (n m : string) (c : column) :
  get_col (set_col df n c) m = if String.eqb n m then Some c else get_col df m.
Proof.
  induction df as [|[n0 c0] df IH]; simpl.
  - reflexivity.
  - destruct (String.eqb_spec n0 n) as [->|Hn]; simpl.
    + destruct (String.eqb n m); reflexivity.
    + rewrite IH. destruct (String.eqb_spec n0 m) as [->|Hm]; [|reflexivity].
      destruct (String.eqb_spec n m) as [->|]; [congruence|reflexivity].
Qed.

Lemma get_col_set_col_ne (df : frame) (n m : string) (c : column) :
  n ≠ m → get_col (set_col df n c) m = get_col df m.
Proof.
  intros H. rewrite get_col_set_col.
  destruct (String.eqb_spec n m); [congruence|reflexivity].
Qed.

Lemma get_col_fillna (df : frame) (n : string) :
  get_col (map (λ nc, (nc.1, fillna_zero nc.2)) df) n
  = option_map fillna_zero (get_col df n).
Proof.
  induction df as [|[n0 c0] df IH]; simpl; [reflexivity|].
  destruct (String.eqb n0 n); [reflexivity|exact IH].
Qed.

(** ** What a computation leaves alone *)

Lemma agree_off_refl names st : agree_off names st st.
Proof. repeat split. eauto. Qed.

Lemma agree_off_trans names st1 st2 st3 :
  agree_off names st1 st2 → agree_off names st2 st3 → agree_off names st1 st3.
Proof.
  intros (Hg & Ht & Hh) (Hg' & Ht' & Hh'). repeat split; try congruence.
  intros l df Hl. destruct (Hh l df Hl) as (df' & Hl' & Hc).
  destruct (Hh' l df' Hl') as (df'' & Hl'' & Hc').
  exists df''. split; [exact Hl''|]. intros n Hn. rewrite Hc', Hc; auto.
Qed.

Lemma keeps_bind {A B} names (m : M A) (k : A → M B) :
  keeps names m → (∀ a, keeps names (k a)) → keeps names (m ≫= k).
Proof.
  intros Hm Hk st. rewrite run_bind. specialize (Hm st).
  destruct (m st) as [[a|e] st1]; simpl in *; [|exact Hm].
  eapply agree_off_trans; [exact Hm|apply Hk].
Qed.

Lemma keeps_lift {A} names (r : result A) : keeps names (lift r).
Proof. intros st. apply agree_off_refl. Qed.

Lemma keeps_ret {A} names (a : A) : keeps names (mret a : M A).
Proof. intros st. apply agree_off_refl. Qed.

Lemma keeps_load_global names n : keeps names (load_global n).
Proof.
  intros st. unfold load_global. destruct (globals st !! n); apply agree_off_refl.
Qed.

Lemma keeps_getitem names v n : keeps names (getitem v n).
Proof.
  intros st. unfold getitem.
  destruct v; try apply agree_off_refl.
  destruct (heap st !! l); [destruct (get_col f n)|]; apply agree_off_refl.
Qed.

Lemma keeps_setitem names v n c : In n names → keeps names (setitem v n c).
Proof.
  intros Hn st. unfold setitem.
  destruct v; try apply agree_off_refl.
  destruct (heap st !! l) as [df|] eqn:E; [|apply agree_off_refl].
  repeat split. simpl. intros l' df' Hl'.
  destruct (decide (l = l')) as [<-|Hne].
  - rewrite lookup_insert_eq. eexists. split; [reflexivity|].
    intros m Hm. rewrite get_col_set_col_ne by congruence. congruence.
  - rewrite lookup_insert_ne by done. eauto.
Qed.

Lemma keeps_add_ratio_columns : keeps ratio_columns add_ratio_columns.
Proof.
  unfold add_ratio_columns, summary_column, set_summary_column.
  repeat first
    [ apply keeps_bind; [|intros ?]
    | apply keeps_lift
    | apply keeps_load_global
    | apply keeps_getitem
    | apply keeps_setitem; unfold ratio_columns; simpl; tauto ].
Qed.

(** ** The module [get_vendor_summary.py] as a script *)

Section ScriptFacts.
Variable sql_sum : list value → option value.
Variable float_of_str : string → option spec_float.

Lemma clean_data_connection st :
  clean_data float_of_str VConnection st = (Raise TypeError, st).
Proof. reflexivity. Qed.

Lemma first_layout_error : check_layout source_lines [0%nat] false = Some 15%nat.
Proof. reflexivity. Qed.

Lemma main_block_raises st :
  ∃ e st', main_block sql_sum float_of_str st = (Raise e, st') ∧
           tables st' = tables st.
Proof.
  destruct (main_block sql_sum float_of_str st) as [r st'] eqn:E.
  unfold main_block, mbind, M_bind, store_global, load_global,
    create_vendor_summary, head, alloc in E.
  simpl in E. rewrite lookup_insert_eq in E. simpl in E.
  destruct (open_database (tables st) ≫= summary_query sql_sum) as [rows|];
    simpl in E.
  - rewrite lookup_insert_eq in E. simpl in E.
    rewrite lookup_insert_eq in E. simpl in E.
    rewrite lookup_insert_ne in E by done.
    rewrite lookup_insert_eq in E. simpl in E.
    inversion E; subst. eauto.
  - inversion E; subst. eauto.
Qed.

Lemma module_body_main st :
  ∃ st1, module_body sql_sum float_of_str st
           = main_block sql_sum float_of_str st1 ∧
         tables st1 = tables st.
Proof. eexists. split; reflexivity. Qed.

Lemma module_body_raises st :
  ∃ e st', module_body sql_sum float_of_str st = (Raise e, st') ∧
           tables st' = tables st.
Proof.
  destruct (module_body_main st) as (st1 & -> & <-).
  apply main_block_raises.
Qed.

(** C3 fails on the code: from every store the standalone run stops with
    an IndentationError before any statement runs (line 15 is indented
    deeper than the docstring before it), and the statements of the
    module, run as written, raise as well; no table is written either
    way. *)
Theorem standalone_run_raises st :
  run_get_vendor_summary sql_sum float_of_str st = (Raise IndentationError, st) ∧
  ∃ e st', module_body sql_sum float_of_str st = (Raise e, st') ∧
           tables st' = tables st.
Proof. split; [reflexivity|apply module_body_raises]. Qed.
End ScriptFacts.

(** ** [clean_data] and the name [vendor_sales_summary] *)

(** C1 fails on the code: called on the summary as the main block names
    it, [clean_data] raises a NameError; with [vendor_sales_summary] naming
    another table it returns its parameter without any of the four computed
    columns, which went to that other table. *)
Lemma computed_columns_miss_parameter :
  (clean_data float_of_digits (VFrame 0) st_main).1 = Raise NameError ∧
  (clean_data float_of_digits (VFrame 0) st_other).1 = Ok (VFrame 0) ∧
  ∃ df other,
    heap (clean_data float_of_digits (VFrame 0) st_other).2 !! 0%nat = Some df ∧
    heap (clean_data float_of_digits (VFrame 0) st_other).2 !! 1%nat = Some other ∧
    Forall (λ n, get_col df n = None) ratio_columns ∧
    Forall (λ n, is_Some (get_col other n)) ratio_columns.
Proof.
  split; [vm_compute; reflexivity|]. split; [vm_compute; reflexivity|].
  eexists _, _. split; [vm_compute; reflexivity|]. split; [vm_compute; reflexivity|].
  split; repeat constructor; vm_compute; eauto.
Qed.

(** C2 fails on the code: the table [clean_data] returns holds
    TotalSalesDollars and TotalPurchaseDollars and no GrossProfit; the
    difference that was computed is the one of the other table that
    [vendor_sales_summary] names. *)
Lemma gross_profit_of_other_table :
  ∃ df other,
    heap (clean_data float_of_digits (VFrame 0) st_other).2 !! 0%nat = Some df ∧
    heap (clean_data float_of_digits (VFrame 0) st_other).2 !! 1%nat = Some other ∧
    get_col df "TotalSalesDollars" = Some (Float64 [float_of_Z 150; float_of_Z 0]) ∧
    get_col df "TotalPurchaseDollars" = Some (Int64 [100; 12]) ∧
    get_col df "GrossProfit" = None ∧
    get_col other "GrossProfit" = Some (Int64 [20]).
Proof.
  eexists _, _. split; [vm_compute; reflexivity|]. split; [vm_compute; reflexivity|].
  repeat split; vm_compute; reflexivity.
Qed.

(** ** Lines 82 to 89 on a frame *)

Lemma lookup_map {A B} (f : A → B) (l : list A) (i : nat) :
  map f l !! i = f <$> (l !! i).
Proof.
  revert i. induction l as [|x l IH]; intros [|i]; simpl; auto.
Qed.

Lemma existsb_lookup {A} (f : A → bool) (l : list A) (i : nat) (x : A) :
  l !! i = Some x → f x = true → existsb f l = true.
Proof.
  revert i. induction l as [|y l IH]; intros [|i]; simpl; try discriminate.
  - intros [= ->] ->. reflexivity.
  - intros Hl Hx. rewrite (IH i Hl Hx). apply orb_true_r.
Qed.

Lemma forallb_lookup_true {A} (f : A → bool) (l : list A) (i : nat) (x : A) :
  l !! i = Some x → forallb f l = true → f x = true.
Proof.
  revert i. induction l as [|y l IH]; intros [|i]; simpl; try discriminate.
  - intros [= ->] H. apply andb_true_iff in H. tauto.
  - intros Hl H. apply andb_true_iff in H. eapply IH; [exact Hl|tauto].
Qed.

Lemma getitem_frame l n st df :
  heap st !! l = Some df →
  getitem (VFrame l) n st =
    match get_col df n with
    | Some c => (Ok c, st)
    | None => (Raise KeyError, st)
    end.
Proof. unfold getitem. intros ->. reflexivity. Qed.

Lemma setitem_frame l n c st df :
  heap st !! l = Some df →
  setitem (VFrame l) n c st
  = (Ok tt, set_heap (<[l := set_col df n c]> (heap st)) st).
Proof. unfold setitem. intros ->. reflexivity. Qed.

Lemma fillna_frame l st df :
  heap st !! l = Some df →
  fillna_inplace (VFrame l) st
  = (Ok tt, set_heap (<[l := map (λ nc, (nc.1, fillna_zero nc.2)) df]> (heap st)) st).
Proof. unfold fillna_inplace. intros ->. reflexivity. Qed.

Lemma strip_column_Ok l n st st' df :
  heap st !! l = Some df →
  strip_column (VFrame l) n st = (Ok tt, st') →
  ∃ c c', get_col df n = Some c ∧ str_strip c = Ok c' ∧
          st' = set_heap (<[l := set_col df n c']> (heap st)) st.
Proof.
  intros Hl H. unfold strip_column in H.
  apply bind_Ok_inv in H as (c & st1 & H1 & H).
  rewrite (getitem_frame _ _ _ _ Hl) in H1.
  destruct (get_col df n) as [c0|]; [|discriminate]. injection H1 as -> ->.
  apply bind_Ok_inv in H as (c' & st2 & H2 & H).
  unfold lift in H2. injection H2 as H2 ->.
  rewrite (setitem_frame _ _ _ _ _ Hl) in H. injection H as <-. eauto.
Qed.

Section CleaningFacts.
Variable float_of_str : string → option spec_float.

Lemma cast_fill_strip_Ok l st st' df :
  heap st !! l = Some df →
  cast_fill_strip float_of_str (VFrame l) st = (Ok tt, st') →
  ∃ v cn cn' cd cd',
    get_col (map (λ nc, (nc.1, fillna_zero nc.2)) (set_col df "Volume" v))
      "VendorName" = Some cn ∧
    str_strip cn = Ok cn' ∧
    get_col (set_col (map (λ nc, (nc.1, fillna_zero nc.2))
                        (set_col df "Volume" v)) "VendorName" cn')
      "Description" = Some cd ∧
    str_strip cd = Ok cd' ∧
    st' = set_heap
            (<[l := set_col (set_col (map (λ nc, (nc.1, fillna_zero nc.2))
                                        (set_col df "Volume" v))
                               "VendorName" cn') "Description" cd']>
               (heap st)) st.
Proof.
  intros Hl H. unfold cast_fill_strip in H.
  apply bind_Ok_inv in H as (c & st1 & H1 & H).
  rewrite (getitem_frame _ _ _ _ Hl) in H1.
  destruct (get_col df "Volume") as [c0|]; [|discriminate].
  injection H1 as -> ->.
  apply bind_Ok_inv in H as (v & st2 & H2 & H).
  unfold lift in H2. injection H2 as H2 ->.
  apply bind_Ok_inv in H as ([] & st3 & H3 & H).
  rewrite (setitem_frame _ _ _ _ _ Hl) in H3. injection H3 as <-.
  apply bind_Ok_inv in H as ([] & st4 & H4 & H).
  erewrite fillna_frame in H4 by (simpl; apply lookup_insert_eq).
  injection H4 as <-.
  apply bind_Ok_inv in H as ([] & st5 & H5 & H).
  eapply strip_column_Ok in H5; [|simpl; apply lookup_insert_eq].
  destruct H5 as (cn & cn' & Hcn & Hcn' & ->).
  eapply strip_column_Ok in H; [|simpl; apply lookup_insert_eq].
  destruct H as (cd & cd' & Hcd & Hcd' & ->).
  exists v, cn, cn', cd, cd'. repeat split; auto.
  unfold set_heap. simpl. by rewrite !insert_insert_eq.
Qed.

(** What the returned frame holds in a column, by the name of the column. *)
Lemma clean_data_Ok l st st' r df :
  heap st !! l = Some df →
  clean_data float_of_str (VFrame l) st = (Ok r, st') →
  r = VFrame l ∧
  ∃ df',
    heap st' !! l = Some df' ∧
    (∀ n, ¬ In n ratio_columns → n ≠ "Volume" → n ≠ "VendorName" →
          n ≠ "Description" →
          get_col df' n = option_map fillna_zero (get_col df n)) ∧
    (∀ n, n = "VendorName" ∨ n = "Description" →
          ∃ c c', get_col df n = Some c ∧
                  str_strip (fillna_zero c) = Ok c' ∧
                  get_col df' n = Some c').
Proof.
  intros Hl. unfold clean_data. intros H.
  apply bind_Ok_inv in H as ([] & st1 & H1 & H).
  apply bind_Ok_inv in H as ([] & st2 & H2 & H).
  injection H as <- <-. split; [reflexivity|].
  destruct (cast_fill_strip_Ok _ _ _ _ Hl H1)
    as (v & cn & cn' & cd & cd' & Hcn & Hcn' & Hcd & Hcd' & ->).
  pose proof (keeps_add_ratio_columns
    (set_heap (<[l := set_col (set_col (map (λ nc, (nc.1, fillna_zero nc.2))
                                 (set_col df "Volume" v))
                        "VendorName" cn') "Description" cd']> (heap st)) st))
    as (_ & _ & Hk).
  rewrite H2 in Hk. simpl in Hk.
  destruct (Hk l _ (lookup_insert_eq _ _ _)) as (df' & Hdf' & Hcols).
  exists df'. split; [exact Hdf'|]. split.
  - intros n Hr Hv Hn Hd. rewrite (Hcols n Hr).
    rewrite !get_col_set_col_ne by congruence.
    rewrite get_col_fillna, get_col_set_col_ne by congruence. reflexivity.
  - rewrite get_col_fillna, get_col_set_col_ne in Hcn by done.
    rewrite get_col_set_col_ne, get_col_fillna, get_col_set_col_ne in Hcd by done.
    destruct (get_col df "VendorName") as [c0|] eqn:E0; [|discriminate].
    destruct (get_col df "Description") as [c1|] eqn:E1; [|discriminate].
    simpl in Hcn, Hcd. injection Hcn as <-. injection Hcd as <-.
    intros n [->| ->].
    + exists c0, cn'. repeat split; auto.
      rewrite Hcols by (unfold ratio_columns; simpl; intuition discriminate).
      rewrite get_col_set_col_ne by done. rewrite get_col_set_col.
      reflexivity.
    + exists c1, cd'. repeat split; auto.
      rewrite Hcols by (unfold ratio_columns; simpl; intuition discriminate).
      rewrite get_col_set_col. reflexivity.
Qed.

Lemma clean_data_unbound_name df st :
  globals st !! "vendor_sales_summary" = None →
  ∃ e st', clean_data float_of_str df st = (Raise e, st').
Proof.
  intros Hg. unfold clean_data. rewrite run_bind.
  destruct (cast_fill_strip float_of_str df st) as [[[]|e] st1] eqn:E; [|eauto].
  assert (globals st1 = globals st) as Hg1.
  { destruct df;
      try (unfold cast_fill_strip in E; rewrite run_bind in E; discriminate).
    destruct (heap st !! l) as [f|] eqn:El;
      [|unfold cast_fill_strip in E; rewrite run_bind in E;
        unfold getitem in E; rewrite El in E; discriminate].
    destruct (cast_fill_strip_Ok _ _ _ _ El E) as (? & ? & ? & ? & ? & _ & _ & _ & _ & ->).
    reflexivity. }
  rewrite run_bind. unfold add_ratio_columns, summary_column.
  rewrite !run_bind. unfold load_global at 1. rewrite Hg1, Hg. eauto.
Qed.
End CleaningFacts.

(** ** Filling before stripping *)

Lemma cells_soft_convert_zero (l : list pyobj) (i : nat) :
  l !! i = Some (PyInt 0) → zero_at (soft_convert l) i.
Proof.
  intros Hi. unfold soft_convert, zero_at.
  destruct l as [|o l]; [destruct i; discriminate|].
  destruct (forallb is_PyInt64 (o :: l)); [|destruct (forallb is_PyNumber (o :: l))];
    cbn [cells]; rewrite ?lookup_map, ?Hi; simpl; eauto.
Qed.

Lemma fill_then_strip_missing (c c' : column) (i : nat) :
  str_strip (fillna_zero c) = Ok c' → missing_at c i → missing_at c' i.
Proof.
  intros Hs (x & Hx & Hna). unfold missing_at.
  destruct c as [l|l|l]; try discriminate. simpl in Hx, Hs.
  rewrite (existsb_lookup _ _ _ _ Hx Hna) in Hs.
  unfold soft_convert in Hs.
  destruct (map fill_cell l) as [|o l'] eqn:El.
  { apply (f_equal (λ k, k !! i)) in El. rewrite lookup_map, Hx in El.
    destruct i; discriminate. }
  destruct (forallb is_PyInt64 (o :: l')); [discriminate|].
  destruct (forallb is_PyNumber (o :: l')); [discriminate|].
  unfold str_strip, str_accessor in Hs.
  destruct (existsb is_PyStr (o :: l') || forallb py_isna (o :: l'));
    [|discriminate].
  cbn [result_bind] in Hs. rewrite <- El in Hs. injection Hs as <-.
  cbn [cells]. rewrite !lookup_map, Hx. simpl.
  unfold fill_cell. rewrite Hna. simpl. eauto.
Qed.

Lemma fill_null_zero (vs : list value) (i : nat) (v : value) :
  vs !! i = Some v → is_null v = true →
  zero_at (fillna_zero (column_of_values vs)) i.
Proof.
  intros Hi Hv. unfold column_of_values.
  destruct (forallb is_null vs || existsb is_Text vs).
  - cbn [fillna_zero].
    assert (pyobj_of_value v = PyNone) as Hnone.
    { destruct v as [| |f|]; try discriminate; [reflexivity|].
      destruct f; try discriminate. reflexivity. }
    assert (map pyobj_of_value vs !! i = Some PyNone) as Hi'
      by (rewrite lookup_map, Hi; simpl; congruence).
    rewrite (existsb_lookup _ _ _ _ Hi' eq_refl).
    apply cells_soft_convert_zero. by rewrite lookup_map, Hi'.
  - destruct (forallb is_Int vs) eqn:E.
    + apply (forallb_lookup_true _ _ _ _ Hi) in E.
      destruct v; discriminate.
    + unfold zero_at. cbn [fillna_zero cells]. rewrite !lookup_map, Hi. simpl.
      assert (float_of_value v = S754_nan) as ->.
      { destruct v as [| |f|]; try discriminate; [reflexivity|].
        destruct f; try discriminate. reflexivity. }
      simpl. eauto.
Qed.

Section NullFacts.
Variable sql_sum : list value → option value.
Variable float_of_str : string → option spec_float.

(** C10: a cell of VendorName or Description that is missing before
    cleaning is missing in the table [clean_data] returns: it is filled
    with the number 0, and stripping a number gives not-a-number. *)
Theorem null_name_stays_missing l st st' r df n c i :
  heap st !! l = Some df →
  n = "VendorName" ∨ n = "Description" →
  get_col df n = Some c →
  missing_at c i →
  clean_data float_of_str (VFrame l) st = (Ok r, st') →
  ∃ df' c',
    r = VFrame l ∧ heap st' !! l = Some df' ∧
    get_col df' n = Some c' ∧ missing_at c' i.
Proof.
  intros Hl Hn Hc Hi H.
  destruct (clean_data_Ok _ _ _ _ _ _ Hl H) as (-> & df' & Hdf' & _ & Hs).
  destruct (Hs n Hn) as (c0 & c' & Hc0 & Hstrip & Hc').
  rewrite Hc in Hc0. injection Hc0 as <-.
  exists df', c'. repeat split; auto.
  eapply fill_then_strip_missing; eauto.
Qed.

Lemma unmatched_sales_null db rows ss o :
  summary_query sql_sum db = Some rows →
  SalesSummary sql_sum db = Some ss →
  In o rows →
  (∀ s, In s ss →
     sql_eq (VendorNumber o) (ss_VendorNo s) && sql_eq (Brand o) (ss_Brand s)
     = false) →
  TotalSalesQuantity o = Null ∧ TotalSalesDollars o = Null ∧
  TotalSalesPrice o = Null ∧ TotalExciseTax o = Null.
Proof.
  intros Hq Hss Ho Hno.
  apply summary_query_inv in Hq as (fs & ps & ss' & _ & _ & Hss' & ->).
  rewrite Hss in Hss'. injection Hss' as <-.
  apply (Permutation_in _ (order_by_desc_perm _ _)) in Ho.
  apply in_map_iff in Ho as (j & <- & Hj).
  apply left_join_In in Hj as [Hj _]. apply left_join_In in Hj as [_ Hj].
  destruct j as [[p [s|]] f]; simpl in *; [|auto].
  destruct Hj as [Hs Hon]. unfold on_sales in Hon.
  rewrite (Hno s Hs) in Hon. discriminate.
Qed.

(** C6: for a row of the query output whose (vendor, brand) pair has no
    row in SalesSummary, the four columns that come from SalesSummary
    hold a zero in the table [clean_data] returns. *)
Theorem unmatched_sales_zero_after_cleaning db rows ss l st st' r i o :
  summary_query sql_sum db = Some rows →
  SalesSummary sql_sum db = Some ss →
  rows !! i = Some o →
  (∀ s, In s ss →
     sql_eq (VendorNumber o) (ss_VendorNo s) && sql_eq (Brand o) (ss_Brand s)
     = false) →
  heap st !! l = Some (read_sql_query rows) →
  clean_data float_of_str (VFrame l) st = (Ok r, st') →
  r = VFrame l ∧
  ∃ df, heap st' !! l = Some df ∧
    Forall (λ n, ∃ c, get_col df n = Some c ∧ zero_at c i) sales_columns.
Proof.
  intros Hq Hss Hi Hno Hl H.
  destruct (clean_data_Ok _ _ _ _ _ _ Hl H) as (-> & df & Hdf & Hcols & _).
  split; [reflexivity|]. exists df. split; [exact Hdf|].
  assert (In o rows) as Ho by (apply list_elem_of_In, list_elem_of_lookup; eauto).
  destruct (unmatched_sales_null _ _ _ _ Hq Hss Ho Hno) as (Hq1 & Hq2 & Hq3 & Hq4).
  unfold sales_columns.
  repeat constructor.
  all: eexists; split;
    [ rewrite Hcols by (unfold ratio_columns; simpl; intuition discriminate);
      reflexivity
    | eapply fill_null_zero; [rewrite lookup_map, Hi; reflexivity|] ].
  all: simpl; by rewrite ?Hq1, ?Hq2, ?Hq3, ?Hq4.
Qed.
End NullFacts.

Lemma null_name_stays_missing_witness :
  ∃ df' c',
    heap (clean_data float_of_digits (VFrame 0) st_null_name).2 !! 0%nat = Some df' ∧
    get_col df' "VendorName" = Some c' ∧ missing_at c' 1.
Proof.
  destruct (null_name_stays_missing float_of_digits 0 st_null_name
              (clean_data float_of_digits (VFrame 0) st_null_name).2
              (VFrame 0) summary_null_name "VendorName"
              (Object [PyStr "ACME "; PyNone]) 1)
    as (df' & c' & _ & H1 & H2 & H3).
  - reflexivity.
  - left; reflexivity.
  - reflexivity.
  - exists PyNone. split; reflexivity.
  - vm_compute. reflexivity.
  - exists df', c'. auto.
Defined.

Lemma unmatched_sales_zero_after_cleaning_witness :
  ∃ df,
    heap (clean_data float_of_digits (VFrame 0) st_alias).2 !! 0%nat = Some df ∧
    Forall (λ n, ∃ c, get_col df n = Some c ∧ zero_at c 1) sales_columns.
Proof.
  destruct (summary_query sum_cells db_example) as [rows|] eqn:Hq;
    [|vm_compute in Hq; discriminate].
  destruct (SalesSummary sum_cells db_example) as [ss|] eqn:Hss;
    [|vm_compute in Hss; discriminate].
  vm_compute in Hq. injection Hq as <-. vm_compute in Hss. injection Hss as <-.
  refine (proj2 (unmatched_sales_zero_after_cleaning sum_cells float_of_digits
            db_example _ _ 0 st_alias
            (clean_data float_of_digits (VFrame 0) st_alias).2
            (VFrame 0) 1 _ _ _ _ _ _ _)).
  - vm_compute. reflexivity.
  - vm_compute. reflexivity.
  - reflexivity.
  - intros s [<-|[]]. vm_compute. reflexivity.
  - vm_compute. reflexivity.
  - vm_compute. reflexivity.
Defined.

(** ** Division by a zero *)

Lemma fdiv_by_zero (x z : spec_float) :
  is_zero z = true → non_finite (fdiv x z) = true.
Proof. destruct z; try discriminate. destruct x; reflexivity. Qed.

Lemma fmul_100_non_finite (x : spec_float) :
  non_finite x = true → non_finite (fmul x (float_of_Z 100)) = true.
Proof. destruct x; try discriminate; reflexivity. Qed.

Lemma as_floats_numeric (c : column) :
  is_numeric c = true →
  ∃ x, as_floats c = Some x ∧ length x = length (cells c).
Proof.
  destruct c as [l|l|l]; try discriminate; intros _; eexists; split;
    try reflexivity; simpl; by rewrite !length_map.
Qed.

Lemma as_floats_zero (c : column) (x : list spec_float) (i : nat) :
  as_floats c = Some x → zero_at c i →
  ∃ z, x !! i = Some z ∧ is_zero z = true.
Proof.
  intros Hx (o & Ho & Hz).
  destruct c as [l|l|l]; try discriminate; injection Hx as <-; simpl in Ho.
  - rewrite lookup_map in Ho. rewrite lookup_map.
    destruct (l !! i) as [k|]; [|discriminate]. injection Ho as <-.
    simpl in Hz. apply Z.eqb_eq in Hz as ->. simpl. eauto.
  - rewrite lookup_map in Ho.
    destruct (l !! i) as [z|]; [|discriminate]. injection Ho as <-. eauto.
Qed.

Lemma col_sub_numeric (a b : column) :
  is_numeric a = true → is_numeric b = true →
  ∃ c x, col_sub a b = Ok c ∧ as_floats c = Some x ∧
         length x = Nat.min (length (cells a)) (length (cells b)).
Proof.
  destruct a as [l|l|l], b as [k|k|k]; try discriminate; intros _ _;
    eexists _, _; (split; [reflexivity|]); (split; [reflexivity|]);
    simpl; by rewrite ?length_map, ?length_zip_with, ?length_map.
Qed.

Lemma col_div_floats (a b : column) (x y : list spec_float) :
  as_floats a = Some x → as_floats b = Some y →
  col_div a b = Ok (Float64 (zip_with fdiv x y)).
Proof. unfold col_div. intros -> ->. reflexivity. Qed.

Lemma quotient_non_finite (x y : list spec_float) (i : nat) :
  (i < length x)%nat →
  (∃ z, y !! i = Some z ∧ is_zero z = true) →
  ∃ q, zip_with fdiv x y !! i = Some q ∧ non_finite q = true.
Proof.
  intros Hi (z & Hz & Hzero).
  destruct (lookup_lt_is_Some_2 x i Hi) as [u Hu].
  exists (fdiv u z). split; [|by apply fdiv_by_zero].
  rewrite lookup_zip_with, Hu, Hz. reflexivity.
Qed.

Lemma frame_height_col (T : frame) (n : nat) (name : string) (c : column) :
  frame_height T n → get_col T name = Some c → length (cells c) = n.
Proof.
  unfold frame_height. induction 1 as [|[m c0] T Hc _ IH]; simpl; [discriminate|].
  destruct (String.eqb m name); [|exact IH]. intros [= <-]. exact Hc.
Qed.

(** ** Lines 92 to 95 on numeric columns *)

Lemma summary_column_run st g T n c :
  globals st !! "vendor_sales_summary" = Some (VFrame g) →
  heap st !! g = Some T →
  get_col T n = Some c →
  summary_column n st = (Ok c, st).
Proof.
  intros Hg Hh Hc. unfold summary_column, load_global.
  rewrite run_bind, Hg, (getitem_frame _ _ _ _ Hh), Hc. reflexivity.
Qed.

Lemma set_summary_column_run st g T n c :
  globals st !! "vendor_sales_summary" = Some (VFrame g) →
  heap st !! g = Some T →
  set_summary_column n c st
  = (Ok tt, set_heap (<[g := set_col T n c]> (heap st)) st).
Proof.
  intros Hg Hh. unfold set_summary_column, load_global.
  rewrite run_bind, Hg, (setitem_frame _ _ _ _ _ Hh). reflexivity.
Qed.

Lemma add_ratio_columns_run st g T tsd tpd tsq tpq gp q pm sto spr :
  globals st !! "vendor_sales_summary" = Some (VFrame g) →
  heap st !! g = Some T →
  get_col T "TotalSalesDollars" = Some tsd →
  get_col T "TotalPurchaseDollars" = Some tpd →
  get_col T "TotalSalesQuantity" = Some tsq →
  get_col T "TotalPurchaseQuantity" = Some tpq →
  col_sub tsd tpd = Ok gp →
  col_div gp tsd = Ok q →
  col_mul_int q 100 = Ok pm →
  col_div tsq tpq = Ok sto →
  col_div tsd tpd = Ok spr →
  add_ratio_columns st =
    (Ok tt,
     set_heap
       (<[g := set_col (set_col (set_col (set_col T "GrossProfit" gp)
                                   "ProfitMargin" pm)
                          "StockTurnover" sto)
                 "SalesToPurchaseRatio" spr]> (heap st)) st).
Proof.
  intros Hg Hh H1 H2 H3 H4 Hgp Hq Hpm Hsto Hspr.
  unfold add_ratio_columns.
  rewrite run_bind, (summary_column_run _ _ _ _ _ Hg Hh H1).
  rewrite run_bind, (summary_column_run _ _ _ _ _ Hg Hh H2).
  rewrite run_bind. unfold lift at 1. rewrite Hgp.
  rewrite run_bind, (set_summary_column_run _ _ _ _ _ Hg Hh).
  set (T1 := set_col T "GrossProfit" gp).
  set (st1 := set_heap (<[g:=T1]> (heap st)) st).
  assert (globals st1 !! "vendor_sales_summary" = Some (VFrame g)) as Hg1 by exact Hg.
  assert (heap st1 !! g = Some T1) as Hh1 by apply lookup_insert_eq.
  rewrite run_bind, (summary_column_run st1 g T1 "GrossProfit" gp Hg1 Hh1)
    by (unfold T1; rewrite get_col_set_col; reflexivity).
  rewrite run_bind, (summary_column_run st1 g T1 "TotalSalesDollars" tsd Hg1 Hh1)
    by (unfold T1; rewrite get_col_set_col_ne by done; exact H1).
  rewrite run_bind. unfold lift at 1. rewrite Hq.
  rewrite run_bind. unfold lift at 1. rewrite Hpm.
  rewrite run_bind, (set_summary_column_run _ _ _ _ _ Hg1 Hh1).
  set (T2 := set_col T1 "ProfitMargin" pm).
  set (st2 := set_heap (<[g:=T2]> (heap st1)) st1).
  assert (globals st2 !! "vendor_sales_summary" = Some (VFrame g)) as Hg2 by exact Hg.
  assert (heap st2 !! g = Some T2) as Hh2 by apply lookup_insert_eq.
  rewrite run_bind, (summary_column_run st2 g T2 "TotalSalesQuantity" tsq Hg2 Hh2)
    by (unfold T2, T1; rewrite !get_col_set_col_ne by done; exact H3).
  rewrite run_bind, (summary_column_run st2 g T2 "TotalPurchaseQuantity" tpq Hg2 Hh2)
    by (unfold T2, T1; rewrite !get_col_set_col_ne by done; exact H4).
  rewrite run_bind. unfold lift at 1. rewrite Hsto.
  rewrite run_bind, (set_summary_column_run _ _ _ _ _ Hg2 Hh2).
  set (T3 := set_col T2 "StockTurnover" sto).
  set (st3 := set_heap (<[g:=T3]> (heap st2)) st2).
  assert (globals st3 !! "vendor_sales_summary" = Some (VFrame g)) as Hg3 by exact Hg.
  assert (heap st3 !! g = Some T3) as Hh3 by apply lookup_insert_eq.
  rewrite run_bind, (summary_column_run st3 g T3 "TotalSalesDollars" tsd Hg3 Hh3)
    by (unfold T3, T2, T1; rewrite !get_col_set_col_ne by done; exact H1).
  rewrite run_bind, (summary_column_run st3 g T3 "TotalPurchaseDollars" tpd Hg3 Hh3)
    by (unfold T3, T2, T1; rewrite !get_col_set_col_ne by done; exact H2).
  rewrite run_bind. unfold lift at 1. rewrite Hspr.
  rewrite (set_summary_column_run _ _ _ _ _ Hg3 Hh3).
  unfold st3, st2, st1, set_heap. simpl. by rewrite !insert_insert_eq.
Qed.

Section RatioFacts.
Variable float_of_str : string → option spec_float.

(** Where line 92 puts the difference: in the table the global names. *)
Lemma gross_profit_on_named_table df st st1 g T tsd tpd tsq tpq :
  cast_fill_strip float_of_str df st = (Ok tt, st1) →
  globals st1 !! "vendor_sales_summary" = Some (VFrame g) →
  heap st1 !! g = Some T →
  get_col T "TotalSalesDollars" = Some tsd → is_numeric tsd = true →
  get_col T "TotalPurchaseDollars" = Some tpd → is_numeric tpd = true →
  get_col T "TotalSalesQuantity" = Some tsq → is_numeric tsq = true →
  get_col T "TotalPurchaseQuantity" = Some tpq → is_numeric tpq = true →
  ∃ st2 T' gp,
    clean_data float_of_str df st = (Ok df, st2) ∧
    heap st2 !! g = Some T' ∧
    col_sub tsd tpd = Ok gp ∧
    get_col T' "GrossProfit" = Some gp.
Proof.
  intros Hcast Hg Hh H1 N1 H2 N2 H3 N3 H4 N4.
  destruct (col_sub_numeric tsd tpd N1 N2) as (gp & xg & Hgp & Fg & _).
  destruct (as_floats_numeric tsd N1) as (ys & Fs & _).
  destruct (as_floats_numeric tpd N2) as (yd & Fd & _).
  destruct (as_floats_numeric tsq N3) as (xq & Fq & _).
  destruct (as_floats_numeric tpq N4) as (yq & Fp & _).
  pose proof (add_ratio_columns_run st1 g T tsd tpd tsq tpq gp _ _ _ _
    Hg Hh H1 H2 H3 H4 Hgp
    (col_div_floats _ _ _ _ Fg Fs) eq_refl
    (col_div_floats _ _ _ _ Fq Fp)
    (col_div_floats _ _ _ _ Fs Fd)) as Hrun.
  eexists _, _, gp. split.
  { unfold clean_data. rewrite run_bind, Hcast, run_bind, Hrun. reflexivity. }
  split; [simpl; apply lookup_insert_eq|]. split; [exact Hgp|].
  by rewrite !get_col_set_col_ne, get_col_set_col by done.
Qed.

(** C5: once lines 82 to 89 have run, when [vendor_sales_summary] names
    a table whose four aggregate columns are numeric, [clean_data]
    returns without raising, and in every row where TotalSalesDollars is
    zero ProfitMargin is infinite or not a number; likewise StockTurnover
    where TotalPurchaseQuantity is zero and SalesToPurchaseRatio where
    TotalPurchaseDollars is zero. *)
Theorem ratios_not_guarded df st st1 g T n tsd tpd tsq tpq :
  cast_fill_strip float_of_str df st = (Ok tt, st1) →
  globals st1 !! "vendor_sales_summary" = Some (VFrame g) →
  heap st1 !! g = Some T →
  frame_height T n →
  get_col T "TotalSalesDollars" = Some tsd → is_numeric tsd = true →
  get_col T "TotalPurchaseDollars" = Some tpd → is_numeric tpd = true →
  get_col T "TotalSalesQuantity" = Some tsq → is_numeric tsq = true →
  get_col T "TotalPurchaseQuantity" = Some tpq → is_numeric tpq = true →
  ∃ st2 T' pm sto spr,
    clean_data float_of_str df st = (Ok df, st2) ∧
    heap st2 !! g = Some T' ∧
    get_col T' "ProfitMargin" = Some (Float64 pm) ∧
    get_col T' "StockTurnover" = Some (Float64 sto) ∧
    get_col T' "SalesToPurchaseRatio" = Some (Float64 spr) ∧
    ∀ i, (i < n)%nat →
      (zero_at tsd i → ∃ y, pm !! i = Some y ∧ non_finite y = true) ∧
      (zero_at tpq i → ∃ y, sto !! i = Some y ∧ non_finite y = true) ∧
      (zero_at tpd i → ∃ y, spr !! i = Some y ∧ non_finite y = true).
Proof.
  intros Hcast Hg Hh Hn H1 N1 H2 N2 H3 N3 H4 N4.
  pose proof (frame_height_col _ _ _ _ Hn H1) as L1.
  pose proof (frame_height_col _ _ _ _ Hn H2) as L2.
  pose proof (frame_height_col _ _ _ _ Hn H3) as L3.
  pose proof (frame_height_col _ _ _ _ Hn H4) as L4.
  destruct (col_sub_numeric tsd tpd N1 N2) as (gp & xg & Hgp & Fg & Lg).
  destruct (as_floats_numeric tsd N1) as (ys & Fs & Ls).
  destruct (as_floats_numeric tpd N2) as (yd & Fd & Ld).
  destruct (as_floats_numeric tsq N3) as (xq & Fq & Lq).
  destruct (as_floats_numeric tpq N4) as (yq & Fp & Lp).
  pose proof (add_ratio_columns_run st1 g T tsd tpd tsq tpq gp
    (Float64 (zip_with fdiv xg ys))
    (Float64 (map (λ u, fmul u (float_of_Z 100)) (zip_with fdiv xg ys)))
    (Float64 (zip_with fdiv xq yq))
    (Float64 (zip_with fdiv ys yd))
    Hg Hh H1 H2 H3 H4 Hgp
    (col_div_floats _ _ _ _ Fg Fs) eq_refl
    (col_div_floats _ _ _ _ Fq Fp)
    (col_div_floats _ _ _ _ Fs Fd)) as Hrun.
  eexists _, _, _, _, _. split.
  { unfold clean_data. rewrite run_bind, Hcast, run_bind, Hrun. reflexivity. }
  split; [simpl; apply lookup_insert_eq|].
  split; [by rewrite !get_col_set_col_ne, get_col_set_col by done|].
  split; [by rewrite !get_col_set_col_ne, get_col_set_col by done|].
  split; [by rewrite get_col_set_col|].
  intros i Hi. repeat split.
  - intros Hz. destruct (quotient_non_finite xg ys i) as (q & Hq & Hnf).
    { lia. } { eapply as_floats_zero; eauto. }
    exists (fmul q (float_of_Z 100)). rewrite lookup_map, Hq. split; [reflexivity|].
    by apply fmul_100_non_finite.
  - intros Hz. apply quotient_non_finite; [lia|]. eapply as_floats_zero; eauto.
  - intros Hz. apply quotient_non_finite; [lia|]. eapply as_floats_zero; eauto.
Qed.
End RatioFacts.

Lemma ratios_not_guarded_witness :
  ∃ st2 T' pm sto spr,
    clean_data float_of_digits (VFrame 0) st_alias = (Ok (VFrame 0), st2) ∧
    heap st2 !! 0%nat = Some T' ∧
    get_col T' "ProfitMargin" = Some (Float64 pm) ∧
    get_col T' "StockTurnover" = Some (Float64 sto) ∧
    get_col T' "SalesToPurchaseRatio" = Some (Float64 spr) ∧
    ∀ i, (i < 2)%nat →
      (zero_at (Float64 [float_of_Z 150; S754_zero false]) i →
         ∃ y, pm !! i = Some y ∧ non_finite y = true) ∧
      (zero_at (Int64 [20; 3]) i →
         ∃ y, sto !! i = Some y ∧ non_finite y = true) ∧
      (zero_at (Int64 [100; 12]) i →
         ∃ y, spr !! i = Some y ∧ non_finite y = true).
Proof.
  refine (ratios_not_guarded float_of_digits (VFrame 0) st_alias
    (cast_fill_strip float_of_digits (VFrame 0) st_alias).2 0
    _ 2 _ _ _ _ _ _ _ _ _ _ _ _ _ _ _ _).
  - vm_compute. reflexivity.
  - vm_compute. reflexivity.
  - vm_compute. reflexivity.
  - repeat constructor.
  - vm_compute. reflexivity.
  - reflexivity.
  - vm_compute. reflexivity.
  - reflexivity.
  - vm_compute. reflexivity.
  - reflexivity.
  - vm_compute. reflexivity.
  - reflexivity.
Defined.

(** The row of the specification's example: purchases of 100, sales of 150
    give a gross profit of 50, a margin of a third of a hundred and a ratio
    of one and a half (in the store where the global names the summary). *)
Example example_row_ratios :
  ∃ T', heap (clean_data float_of_digits (VFrame 0) st_alias).2 !! 0%nat = Some T' ∧
    (∃ l, get_col T' "GrossProfit" = Some (Float64 l) ∧
          l !! 0%nat = Some (float_of_Z 50)) ∧
    (∃ l, get_col T' "ProfitMargin" = Some (Float64 l) ∧
          l !! 0%nat = Some (fmul (fdiv (float_of_Z 50) (float_of_Z 150))
                               (float_of_Z 100))) ∧
    (∃ l, get_col T' "SalesToPurchaseRatio" = Some (Float64 l) ∧
          l !! 0%nat = Some (fdiv (float_of_Z 3) (float_of_Z 2))).
Proof.
  eexists. split; [vm_compute; reflexivity|].
  repeat split; eexists; split; vm_compute; reflexivity.
Qed.

(** ** More on the loader *)





Lemma apply_writes_other ws ts k :
  ¬ In k (map fst ws) → apply_writes ws ts !! k = ts !! k.
Proof.
  unfold apply_writes. revert ts.
  induction ws as [|[k' v] ws IH]; intros ts Hk; simpl; [reflexivity|].
  rewrite IH by (intros H; apply Hk; right; exact H).
  apply lookup_insert_ne. intros ->. apply Hk. left. reflexivity.
Qed.

Section LoaderMore.
Variable read_csv : string → string → result frame.

Lemma written_app pre rest :
written read_csv (pre ++ rest) =
  match (written read_csv pre).2 with
  | Ok _ => ((written read_csv pre).1 ++ (written read_csv rest).1,
             (written read_csv rest).2)
  | Raise e => written read_csv pre
  end.
Proof.
induction pre as [|entry pre IH]; simpl.
- by destruct (written read_csv rest).
- destruct (write_of read_csv entry) as [[w|]|e]; simpl.
  + rewrite IH. destruct (written read_csv pre) as [ws r]. simpl.
    by destruct r.
  + exact IH.
  + reflexivity.
Qed.

Lemma written_marked data :
written read_csv (List.filter (λ e, contains ".csv" e.1) data)
= written read_csv data.
Proof.
induction data as [|entry data IH]; simpl; [reflexivity|].
destruct (contains ".csv" entry.1) eqn:E; simpl.
- by rewrite IH.
- unfold write_of. by rewrite E.
Qed.

Lemma written_keys data w :
In w (written read_csv data).1 →
∃ e, In e data ∧ contains ".csv" e.1 = true ∧ w.1 = lower (drop_last4 e.1).
Proof.
induction data as [|entry data IH]; simpl; [tauto|].
destruct (write_of read_csv entry) as [[w'|]|ex] eqn:E; simpl.
- intros [<-|H].
  + exists entry. split; [auto|]. unfold write_of in E.
    destruct (contains ".csv" entry.1); [|discriminate]. split; [reflexivity|].
    destruct (read_csv _ _); [|discriminate]. simpl in E.
    destruct (table_of_frame _); [|discriminate]. by injection E as <-.
  + destruct (IH H) as (e & He & Hm). eauto.
- intros H. destruct (IH H) as (e & He & Hm). eauto.
- tauto.
Qed.

(** X1: a file that pandas cannot read stops the run with its exception:
  the tables loaded before it stay as they are, and no file listed after
  it is loaded. *)
Theorem bad_file_stops_run pre e post st ex :
(run_ingestion_db read_csv pre st).1 = Ok tt →
contains ".csv" e.1 = true →
read_csv (String.append "data/" e.1) e.2 = Raise ex →
(run_ingestion_db read_csv (pre ++ e :: post) st).1 = Raise ex ∧
tables (run_ingestion_db read_csv (pre ++ e :: post) st).2
  = tables (run_ingestion_db read_csv pre st).2.
Proof.
intros Hpre Hm Hread.
destruct (run_ingestion_db_written read_csv pre st) as [H1 H2].
destruct (run_ingestion_db_written read_csv (pre ++ e :: post) st) as [H3 H4].
rewrite H3, H4, H2. rewrite H1 in Hpre.
rewrite written_app, Hpre. simpl.
unfold write_of. rewrite Hm, Hread. simpl. by rewrite app_nil_r.
Qed.

(** X2: entries of the directory whose name does not contain [.csv] have no
  effect: the run ends the same way and leaves the same tables as a run on
  the directory without them. *)
Theorem unmarked_files_ignored data st :
(run_ingestion_db read_csv data st).1
  = (run_ingestion_db read_csv
       (List.filter (λ e, contains ".csv" e.1) data) st).1 ∧
tables (run_ingestion_db read_csv data st).2
  = tables (run_ingestion_db read_csv
              (List.filter (λ e, contains ".csv" e.1) data) st).2.
Proof.
destruct (run_ingestion_db_written read_csv data st) as [-> ->].
destruct (run_ingestion_db_written read_csv
            (List.filter (λ e, contains ".csv" e.1) data) st) as [-> ->].
by rewrite written_marked.
Qed.


(** X4: the loader changes no table but those named after a loaded file:
  a table whose key is the name of no marked file cut by four characters
  is after the run what it was before. *)
Theorem other_tables_untouched data st k :
(∀ e, In e data → contains ".csv" e.1 = true → lower (drop_last4 e.1) ≠ k) →
tables (run_ingestion_db read_csv data st).2 !! k = tables st !! k.
Proof.
intros Hk.
destruct (run_ingestion_db_written read_csv data st) as [_ ->].
apply apply_writes_other. intros H. apply in_map_iff in H as (w & <- & Hw).
apply written_keys in Hw as (e & He & Hm & Hw). by apply (Hk e He Hm).
Qed.
End LoaderMore.


Lemma bad_file_stops_run_witness :
  (run_ingestion_db read_unless_empty
     ([("a.csv", "x")] ++ ("b.csv", "") :: [("c.csv", "y")]) empty_state).1
    = Raise ValueError ∧
  tables (run_ingestion_db read_unless_empty
            ([("a.csv", "x")] ++ ("b.csv", "") :: [("c.csv", "y")]) empty_state).2
    = tables (run_ingestion_db read_unless_empty
                [("a.csv", "x")] empty_state).2.
Proof.
  apply (bad_file_stops_run read_unless_empty [("a.csv", "x")] ("b.csv", "") [("c.csv", "y")]);
    reflexivity.
Defined.

Lemma other_tables_untouched_witness :
  tables (run_ingestion_db read_one_cell [("a.csv", "x"); ("notes.txt", "n")]
            empty_state).2 !! "b" = tables empty_state !! "b".
Proof.
  apply (other_tables_untouched read_one_cell).
  intros e [<-|[<-|[]]]; vm_compute; congruence.
Defined.

(** ** [ingest_db] *)

Lemma result_map_Ok_Forall2 {A B} (f : A → result B) (l : list A) (k : list B) :
  result_map f l = Ok k → Forall2 (λ x y, f x = Ok y) l k.
Proof.
  revert k. induction l as [|x l IH]; simpl; intros k H.
  - injection H as <-. constructor.
  - destruct (f x) as [y|] eqn:E; [|discriminate]. simpl in H.
    destruct (result_map f l) as [k'|]; [|discriminate]. simpl in H.
    injection H as <-. constructor; auto.
Qed.

Lemma table_of_frame_shape (f : frame) (t : sql_table) :
  table_of_frame f = Ok t →
  map fst t = column_names f ∧
  Forall2 (λ nc nv, length nv.2 = length (cells nc.2)) f t.
Proof.
  unfold table_of_frame. intros H. apply result_map_Ok_Forall2 in H.
  induction H as [|[n c] [n' vs] f t Hx _ [IH1 IH2]]; simpl.
  - split; constructor.
  - simpl in Hx. destruct (result_map value_of_cell (cells c)) as [vs'|] eqn:E;
      [|discriminate].
    simpl in Hx. injection Hx as <- <-.
    split; [unfold column_names in *; simpl; by rewrite IH1|].
    constructor; [|exact IH2]. simpl.
    apply result_map_Ok_Forall2 in E. symmetry. eapply Forall2_length, E.
Qed.

(** X5: [ingest_db] stores the table under the given name with the columns
    of the frame, by their names and in their order, and with as many cells
    in each; no other column (no index) is stored, and the frames and the
    names of the module are left alone. *)
Theorem ingest_db_columns l name st st' f :
  heap st !! l = Some f →
  ingest_db (VFrame l) name VConnection st = (Ok tt, st') →
  ∃ t, tables st' !! lower name = Some (name, t) ∧
       map fst t = column_names f ∧
       Forall2 (λ nc nv, length nv.2 = length (cells nc.2)) f t ∧
       heap st' = heap st ∧ globals st' = globals st.
Proof.
  intros Hl. unfold ingest_db. rewrite Hl.
  destruct (table_of_frame f) as [t|] eqn:E; [|discriminate].
  intros [= <-]. exists t. simpl. rewrite lookup_insert_eq.
  destruct (table_of_frame_shape _ _ E). auto.
Qed.

(** X6: [if_exists = 'replace']: ingesting a second frame under a name
    leaves the database as if only the second had been ingested; nothing of
    the first table is kept. *)
Theorem ingest_db_replaces l1 l2 name st f1 f2 t1 t2 :
  heap st !! l1 = Some f1 →
  heap st !! l2 = Some f2 →
  table_of_frame f1 = Ok t1 →
  table_of_frame f2 = Ok t2 →
  (ingest_db (VFrame l1) name VConnection;;
   ingest_db (VFrame l2) name VConnection) st
  = ingest_db (VFrame l2) name VConnection st.
Proof.
  intros H1 H2 Ht1 Ht2. rewrite run_bind. unfold ingest_db.
  rewrite H1, Ht1. simpl. rewrite H2, Ht2.
  unfold set_tables. simpl. by rewrite insert_insert_eq.
Qed.

Lemma ingest_db_columns_witness :
  ∃ t, tables (ingest_db (VFrame 1) "vendor_sales_summary" VConnection st_other).2
         !! lower "vendor_sales_summary" = Some ("vendor_sales_summary", t) ∧
       map fst t = column_names other_table ∧
       Forall2 (λ nc nv, length nv.2 = length (cells nc.2)) other_table t ∧
       heap (ingest_db (VFrame 1) "vendor_sales_summary" VConnection st_other).2
         = heap st_other ∧
       globals (ingest_db (VFrame 1) "vendor_sales_summary" VConnection st_other).2
         = globals st_other.
Proof.
  apply (ingest_db_columns 1 "vendor_sales_summary" st_other); reflexivity.
Defined.

Lemma ingest_db_replaces_witness :
  (ingest_db (VFrame 0) "t" VConnection;;
   ingest_db (VFrame 1) "t" VConnection) st_other
  = ingest_db (VFrame 1) "t" VConnection st_other.
Proof.
  eapply (ingest_db_replaces 0 1 "t" st_other); reflexivity.
Defined.

(** ** More on the query: order, origin of the rows, joined columns *)

Lemma num_compare_antisym (x y : num) :
  num_compare x y = CompOpp (num_compare y x).
Proof. destruct x, y; simpl; auto. symmetry. apply Qcompare_antisym. Qed.

Lemma sql_compare_antisym (a b : value) :
  sql_compare a b = CompOpp (sql_compare b a).
Proof.
  unfold sql_compare.
  destruct a as [|x|f|s], b as [|y|g|t]; cbn [num_of]; auto;
    try apply String.compare_antisym;
    repeat match goal with
    | |- context [float_num ?f] => destruct (float_num f)
    end; auto; apply num_compare_antisym.
Qed.

Lemma sql_compare_Lt_flip (a b : value) :
  sql_compare a b = Lt → sql_compare b a ≠ Lt.
Proof. rewrite (sql_compare_antisym b a). intros ->. discriminate. Qed.

Section OrderFacts.
Context {A : Type} (key : A → value).

Lemma insert_desc_HdRel (y x : A) (l : list A) :
HdRel (not_below key) y l → not_below key y x → HdRel (not_below key) y (insert_desc key x l).
Proof.
intros Hl Hx. destruct l as [|z l]; simpl; [by constructor|].
inversion Hl; subst.
destruct (sql_compare (key x) (key z)); by constructor.
Qed.

Lemma insert_desc_Sorted (x : A) (l : list A) :
Sorted (not_below key) l → Sorted (not_below key) (insert_desc key x l).
Proof.
induction 1 as [|y l Hl IH Hy]; simpl.
- repeat constructor.
- destruct (sql_compare (key x) (key y)) eqn:E.
  + constructor; [by constructor|]. constructor. unfold not_below. congruence.
  + constructor; [exact IH|]. apply insert_desc_HdRel; [exact Hy|].
    by apply sql_compare_Lt_flip.
  + constructor; [by constructor|]. constructor. unfold not_below. congruence.
Qed.

Lemma order_by_desc_Sorted (l : list A) : Sorted (not_below key) (order_by_desc key l).
Proof.
induction l as [|x l IH]; simpl; [constructor|].
by apply insert_desc_Sorted.
Qed.
End OrderFacts.



Section QueryMore.
Variable sql_sum : list value → option value.

Lemma purchase_of_group_fields g p :
purchase_of_group sql_sum g = Some p →
ps_VendorNumber p = p_VendorNumber g.1.1 ∧
ps_VendorName p = p_VendorName g.1.1 ∧
ps_Brand p = p_Brand g.1.1 ∧
ps_Description p = p_Description g.1.1 ∧
ps_PurchasePrice p = p_PurchasePrice g.1.1 ∧
ps_ActualPrice p = pp_Price g.1.2 ∧
ps_Volume p = pp_Volume g.1.2 ∧
sql_sum (map (λ r, p_Quantity r.1) (members g)) = Some (ps_TotalPurchaseQuantity p) ∧
sql_sum (map (λ r, p_Dollars r.1) (members g)) = Some (ps_TotalPurchaseDollars p).
Proof.
unfold purchase_of_group. intros H.
destruct (sql_sum (map (λ r, p_Quantity r.1) (members g))) as [q|]; [|discriminate].
destruct (sql_sum (map (λ r, p_Dollars r.1) (members g))) as [d|]; [|discriminate].
simpl in H. injection H as <-. simpl. tauto.
Qed.

(** X7: the rows of the summary come in descending order of
  TotalPurchaseDollars: no row is directly followed by one with a greater
  total, in the order SQLite gives the cells (NULL below every number). *)
Theorem summary_in_descending_order db rows :
summary_query sql_sum db = Some rows →
Sorted (not_below TotalPurchaseDollars) rows.
Proof.
intros H. apply summary_query_inv in H as (fs & ps & ss & _ & _ & _ & ->).
apply order_by_desc_Sorted.
Qed.

(** X8: every row of the summary stems from a purchase line with a price
  above zero and a row of purchase_prices of the same brand: vendor,
  name, brand, description and purchase price are those of the purchase
  line, reference price and volume those of the price row. *)
Theorem summary_row_origin db rows o :
summary_query sql_sum db = Some rows →
In o rows →
∃ p pp,
  In p (purchases db) ∧ In pp (purchase_prices db) ∧
  sql_eq (p_Brand p) (pp_Brand pp) = true ∧
  sql_gt_zero (p_PurchasePrice p) = true ∧
  VendorNumber o = p_VendorNumber p ∧ VendorName o = p_VendorName p ∧
  Brand o = p_Brand p ∧ Description o = p_Description p ∧
  PurchasePrice o = p_PurchasePrice p ∧
  ActualPrice o = pp_Price pp ∧ Volume o = pp_Volume pp.
Proof.
intros H Ho. apply summary_query_inv in H as (fs & ps & ss & _ & Hps & _ & ->).
apply (Permutation_in _ (order_by_desc_perm _ _)) in Ho.
apply in_map_iff in Ho as (j & <- & Hj).
apply left_join_In in Hj as [Hj _]. apply left_join_In in Hj as [Hj _].
unfold PurchaseSummary in Hps. apply mapM_Some in Hps.
assert (Forall (λ g : (purchase * purchase_price) * list (purchase * purchase_price),
          In g.1 (priced_purchases db))
          (group_by (λ a b, same_keys (purchase_key a) (purchase_key b))
             (priced_purchases db))) as Hg.
{ apply (group_by_rep _ (λ r, In r (priced_purchases db))).
  apply List.Forall_forall. auto. }
assert (∃ g, In g.1 (priced_purchases db) ∧
             purchase_of_group sql_sum g = Some j.1.1) as (g & Hin & Hgp).
{ clear -Hps Hg Hj. induction Hps as [|g p gs ps' Hgp _ IH].
  - destruct Hj.
  - inversion Hg; subst. destruct Hj as [<-|Hj]; [eauto|auto]. }
apply purchase_of_group_fields in Hgp
  as (E1 & E2 & E3 & E4 & E5 & E6 & E7 & _).
unfold priced_purchases in Hin. apply filter_In in Hin as [Hin Hpos].
unfold inner_join in Hin. apply in_flat_map in Hin as (p & Hp & Hin).
apply in_map_iff in Hin as (pp & Hpair & Hpp). apply filter_In in Hpp as [Hpp Hon].
rewrite <- Hpair in *. simpl in *.
exists p, pp. simpl. tauto.
Qed.



End QueryMore.

Lemma summary_in_descending_order_witness :
  ∃ rows, summary_query sum_cells db_example = Some rows ∧
          Sorted (not_below TotalPurchaseDollars) rows.
Proof.
  eexists. split; [vm_compute; reflexivity|].
  apply (summary_in_descending_order sum_cells db_example). vm_compute. reflexivity.
Defined.

Lemma summary_row_origin_witness :
  ∃ o, In o rows_example ∧
  ∃ p pp,
    In p (purchases db_example) ∧ In pp (purchase_prices db_example) ∧
    sql_eq (p_Brand p) (pp_Brand pp) = true ∧
    sql_gt_zero (p_PurchasePrice p) = true ∧
    VendorNumber o = p_VendorNumber p ∧ VendorName o = p_VendorName p ∧
    Brand o = p_Brand p ∧ Description o = p_Description p ∧
    PurchasePrice o = p_PurchasePrice p ∧
    ActualPrice o = pp_Price pp ∧ Volume o = pp_Volume pp.
Proof.
  eexists. split; [left; reflexivity|].
  apply (summary_row_origin sum_cells db_example rows_example);
    [reflexivity|left; reflexivity].
Defined.




(** ** What a group holds *)

Section GroupFacts.
Context {A : Type} (sk : A → A → bool).
Hypothesis sk_refl : ∀ x, sk x x = true.
Hypothesis sk_euclid : ∀ a b c, sk a b = true → sk a c = true → sk b c = true.

Lemma sk_sym a b : sk a b = true → sk b a = true.
Proof. intros H. exact (sk_euclid a b a H (sk_refl a)). Qed.

Lemma sk_trans a b c : sk a b = true → sk b c = true → sk a c = true.
Proof. intros H1 H2. exact (sk_euclid b a c (sk_sym a b H1) H2). Qed.

Lemma insert_group_cases (x : A) (gs : list (A * list A)) :
(∃ gs1 r m gs2,
    gs = gs1 ++ (r, m) :: gs2 ∧ sk r x = true ∧
    Forall (λ g, sk g.1 x = false) gs1 ∧
    insert_group sk x gs = gs1 ++ (r, m ++ [x]) :: gs2) ∨
(Forall (λ g, sk g.1 x = false) gs ∧
 insert_group sk x gs = gs ++ [(x, [])]).
Proof.
induction gs as [|[r m] gs IH]; simpl.
- right. split; [constructor|reflexivity].
- destruct (sk r x) eqn:E.
  + left. exists [], r, m, gs. repeat split; auto.
  + destruct IH as [(gs1 & r' & m' & gs2 & -> & Hr & H1 & ->)|[H1 ->]].
    * left. exists ((r, m) :: gs1), r', m', gs2. repeat split; auto.
    * right. split; [constructor; auto|reflexivity].
Qed.

Lemma Forall_both (P Q : A * list A → Prop) (l : list (A * list A)) :
Forall P l → Forall Q l → Forall (λ g, P g ∧ Q g) l.
Proof. intros HP HQ. apply Forall_and. auto. Qed.

Lemma filter_snoc_false (r x : A) (l : list A) :
sk r x = false → List.filter (sk r) (l ++ [x]) = List.filter (sk r) l.
Proof. intros H. rewrite List.filter_app. simpl. rewrite H. apply app_nil_r. Qed.

Lemma ForallOrdPairs_after (R : A * list A → A * list A → Prop) gs1 g gs2 :
ForallOrdPairs R (gs1 ++ g :: gs2) → Forall (R g) gs2.
Proof.
induction gs1 as [|g' gs1 IH]; simpl; intros H; inversion H; subst; auto.
Qed.

Lemma grouped_insert (x : A) (gs : list (A * list A)) (l : list A) :
grouped sk gs l → grouped sk (insert_group sk x gs) (l ++ [x]).
Proof.
intros (Hd & Hm & Hc). split; [by apply insert_group_distinct|].
destruct (insert_group_cases x gs)
  as [(gs1 & r & m & gs2 & -> & Hr & H1 & ->)|[H1 ->]].
- apply Forall_app in Hm as [Hm1 Hm2]. inversion Hm2 as [|? ? Hrm Hm3]; subst.
  assert (Forall (λ g : A * list A, sk g.1 x = false) gs2) as H2.
  { eapply Forall_impl; [exact (ForallOrdPairs_after _ _ _ _ Hd)|].
    intros g Hg. simpl in Hg. destruct (sk g.1 x) eqn:E; [|reflexivity].
    rewrite (sk_euclid x r g.1 (sk_sym _ _ Hr) (sk_sym _ _ E)) in Hg.
    discriminate. }
  split.
  + apply Forall_app. split; [|constructor].
    * eapply Forall_impl; [exact (Forall_both _ _ _ Hm1 H1)|].
      intros g [Hg Hx]. simpl. by rewrite filter_snoc_false.
    * unfold members in *. simpl in *. rewrite List.filter_app. simpl.
      rewrite Hr, <- Hrm. reflexivity.
    * eapply Forall_impl; [exact (Forall_both _ _ _ Hm3 H2)|].
      intros g [Hg Hx]. simpl. by rewrite filter_snoc_false.
  + apply Forall_app. split.
    * eapply Forall_impl; [exact Hc|]. intros y Hy. simpl in Hy.
      apply List.Exists_exists in Hy as (g & Hg & Hy). apply List.Exists_exists.
      apply in_app_or in Hg as [Hg|[<-|Hg]].
      -- exists g. split; [apply in_or_app; auto|exact Hy].
      -- exists (r, m ++ [x]). split; [apply in_or_app; right; left; auto|exact Hy].
      -- exists g. split; [apply in_or_app; right; right; auto|exact Hy].
    * constructor; [|constructor]. apply List.Exists_exists.
      exists (r, m ++ [x]). split; [apply in_or_app; right; left; auto|exact Hr].
- split.
  + apply Forall_app. split.
    * eapply Forall_impl; [exact (Forall_both _ _ _ Hm H1)|].
      intros g [Hg Hx]. simpl. by rewrite filter_snoc_false.
    * constructor; [|constructor]. unfold members. simpl.
      rewrite List.filter_app. simpl. rewrite sk_refl.
      assert (List.filter (sk x) l = []) as ->; [|reflexivity].
      clear -Hc H1 sk_refl sk_euclid.
      induction Hc as [|y l Hy _ IH]; simpl; [reflexivity|].
      destruct (sk x y) eqn:E; [|exact IH]. exfalso.
      apply List.Exists_exists in Hy as (g & Hg & Hy).
      rewrite List.Forall_forall in H1. specialize (H1 g Hg). simpl in H1.
      rewrite (sk_trans g.1 y x Hy (sk_sym _ _ E)) in H1. discriminate.
  + apply Forall_app. split.
    * eapply Forall_impl; [exact Hc|]. intros y Hy. simpl in Hy.
      apply List.Exists_exists in Hy as (g & Hg & Hy). apply List.Exists_exists.
      exists g. split; [apply in_or_app; auto|exact Hy].
    * constructor; [|constructor]. apply List.Exists_exists.
      exists (x, []). split; [apply in_or_app; right; left; auto|apply sk_refl].
Qed.

Lemma group_by_grouped (l : list A) : grouped sk (group_by sk l) l.
Proof.
unfold group_by.
assert (∀ l0 gs, grouped sk gs l0 →
          grouped sk (fold_left (λ gs x, insert_group sk x gs) l gs) (l0 ++ l)) as H.
{ induction l as [|x l IH]; intros l0 gs Hg; simpl.
  - by rewrite app_nil_r.
  - replace (l0 ++ x :: l) with ((l0 ++ [x]) ++ l) by by rewrite <- app_assoc.
    apply IH, grouped_insert, Hg. }
apply (H [] []). repeat split; constructor.
Qed.

(** A group holds exactly the rows of the table that have its key, in the
  order of the table. *)
Lemma group_by_members (l : list A) :
Forall (λ g, members g = List.filter (sk g.1) l) (group_by sk l).
Proof. apply group_by_grouped. Qed.
End GroupFacts.

(** ** The totals of the sub-aggregates *)

Lemma num_compare_refl (x : num) : num_compare x x = Eq.
Proof. destruct x; simpl; auto. apply Qeq_alt. reflexivity. Qed.

Lemma same_refl (a : value) : same a a = true.
Proof.
  unfold same, sql_compare.
  destruct a as [|x|f|s]; cbn [num_of]; auto.
  - by rewrite num_compare_refl.
  - destruct (float_num f); [by rewrite num_compare_refl|reflexivity].
  - by rewrite string_compare_refl.
Qed.

Lemma same_euclid (a b c : value) :
  same a b = true → same a c = true → same b c = true.
Proof.
  unfold same, is_Eq. intros H1 H2.
  destruct (sql_compare a b) eqn:E1; try discriminate.
  destruct (sql_compare a c) eqn:E2; try discriminate.
  by rewrite (sql_compare_Eq_trans a b c).
Qed.

Lemma purchase_key_refl (x : purchase * purchase_price) :
  same_keys (purchase_key x) (purchase_key x) = true.
Proof. unfold same_keys. simpl. by rewrite !same_refl. Qed.

Lemma same_keys_euclid (ka kb kc : list value) :
  length ka = length kb → length ka = length kc →
  same_keys ka kb = true → same_keys ka kc = true → same_keys kb kc = true.
Proof.
  unfold same_keys. revert kb kc.
  induction ka as [|a ka IH]; intros [|b kb] [|c kc]; simpl; try discriminate; auto.
  intros [= L1] [= L2] H1 H2.
  apply andb_true_iff in H1 as [H1 H1'], H2 as [H2 H2'].
  rewrite (same_euclid a b c H1 H2). simpl. by apply IH.
Qed.

Section TotalsFacts.
Variable sql_sum : list value → option value.

Lemma sales_of_group_fields g s :
sales_of_group sql_sum g = Some s →
ss_VendorNo s = s_VendorNo g.1 ∧ ss_Brand s = s_Brand g.1 ∧
sql_sum (map s_SalesQuantity (members g)) = Some (ss_TotalSalesQuantity s) ∧
sql_sum (map s_SalesDollars (members g)) = Some (ss_TotalSalesDollars s) ∧
sql_sum (map s_SalesPrice (members g)) = Some (ss_TotalSalesPrice s) ∧
sql_sum (map s_ExciseTax (members g)) = Some (ss_TotalExciseTax s).
Proof.
unfold sales_of_group. intros H.
destruct (sql_sum (map s_SalesQuantity (members g))); [|discriminate].
destruct (sql_sum (map s_SalesDollars (members g))); [|discriminate].
destruct (sql_sum (map s_SalesPrice (members g))); [|discriminate].
destruct (sql_sum (map s_ExciseTax (members g))); [|discriminate].
simpl in H. injection H as <-. simpl. tauto.
Qed.

Lemma freight_of_group_fields g f :
freight_of_group sql_sum g = Some f →
fs_VendorNumber f = vi_VendorNumber g.1 ∧
sql_sum (map vi_Freight (members g)) = Some (fs_FreightCost f).
Proof.
unfold freight_of_group. intros H.
destruct (sql_sum (map vi_Freight (members g))); [|discriminate].
simpl in H. injection H as <-. simpl. tauto.
Qed.

Lemma Forall2_In_r {X Y} (R : X → Y → Prop) (l : list X) (k : list Y) (y : Y) :
Forall2 R l k → In y k → ∃ x, In x l ∧ R x y.
Proof.
induction 1 as [|x y' l k Hxy _ IH]; simpl; [tauto|].
intros [<-|Hy]; [eauto|]. destruct (IH Hy) as (x' & Hx' & HR). eauto.
Qed.

(** X12: the purchase totals of a row of the summary are the sums over all
  purchase lines (with a price above zero and a priced brand) that have
  the seven grouping columns of the row, and over no other line. *)
Theorem purchase_totals_of_row db rows o :
summary_query sql_sum db = Some rows →
In o rows →
sql_sum (map (λ r, p_Quantity r.1)
           (List.filter (λ r, same_keys (row_key o) (purchase_key r))
              (priced_purchases db)))
  = Some (TotalPurchaseQuantity o) ∧
sql_sum (map (λ r, p_Dollars r.1)
           (List.filter (λ r, same_keys (row_key o) (purchase_key r))
              (priced_purchases db)))
  = Some (TotalPurchaseDollars o).
Proof.
intros H Ho. apply summary_query_inv in H as (fs & ps & ss & _ & Hps & _ & ->).
apply (Permutation_in _ (order_by_desc_perm _ _)) in Ho.
apply in_map_iff in Ho as (j & <- & Hj).
apply left_join_In in Hj as [Hj _]. apply left_join_In in Hj as [Hj _].
unfold PurchaseSummary in Hps. apply mapM_Some in Hps.
destruct (Forall2_In_r _ _ _ _ Hps Hj) as (g & Hg & Hgp).
pose proof (group_by_members
  (λ a b, same_keys (purchase_key a) (purchase_key b))
  purchase_key_refl
  (λ a b c, same_keys_euclid (purchase_key a) (purchase_key b)
              (purchase_key c) eq_refl eq_refl)
  (priced_purchases db)) as Hm.
rewrite List.Forall_forall in Hm. specialize (Hm g Hg). simpl in Hm.
apply purchase_of_group_fields in Hgp
  as (E1 & E2 & E3 & E4 & E5 & E6 & E7 & Eq & Ed).
rewrite Hm in Eq, Ed.
assert (row_key (select_row j) = purchase_key g.1) as ->.
{ unfold row_key, purchase_key. simpl. congruence. }
auto.
Qed.

(** X13: the totals of a row of SalesSummary are the sums over all sales
  with its vendor and brand, and over no other sale. *)
Theorem sales_totals_of_pair db ss s :
SalesSummary sql_sum db = Some ss →
In s ss →
let sales := List.filter
  (λ x, same_keys [ss_VendorNo s; ss_Brand s] (sales_key x)) (Sales db) in
sql_sum (map s_SalesQuantity sales) = Some (ss_TotalSalesQuantity s) ∧
sql_sum (map s_SalesDollars sales) = Some (ss_TotalSalesDollars s) ∧
sql_sum (map s_SalesPrice sales) = Some (ss_TotalSalesPrice s) ∧
sql_sum (map s_ExciseTax sales) = Some (ss_TotalExciseTax s).
Proof.
intros Hss Hs. unfold SalesSummary in Hss. apply mapM_Some in Hss.
destruct (Forall2_In_r _ _ _ _ Hss Hs) as (g & Hg & Hgs).
pose proof (group_by_members
  (λ a b, same_keys (sales_key a) (sales_key b))
  (λ x, ltac:(unfold same_keys; simpl; by rewrite !same_refl))
  (λ a b c, same_keys_euclid (sales_key a) (sales_key b) (sales_key c)
              eq_refl eq_refl)
  (Sales db)) as Hm.
rewrite List.Forall_forall in Hm. specialize (Hm g Hg). simpl in Hm.
apply sales_of_group_fields in Hgs as (E1 & E2 & Eq & Ed & Ep & Et).
rewrite Hm in Eq, Ed, Ep, Et. simpl. rewrite E1, E2. auto.
Qed.

(** X14: FreightCost in FreightSummary is the sum of Freight over all
  invoices of the vendor, and over no other invoice. *)
Theorem freight_total_of_vendor db fs f :
FreightSummary sql_sum db = Some fs →
In f fs →
sql_sum (map vi_Freight
           (List.filter (λ x, same (fs_VendorNumber f) (vi_VendorNumber x))
              (vendor_invoice db)))
  = Some (fs_FreightCost f).
Proof.
intros Hfs Hf. unfold FreightSummary in Hfs. apply mapM_Some in Hfs.
destruct (Forall2_In_r _ _ _ _ Hfs Hf) as (g & Hg & Hgf).
pose proof (group_by_members
  (λ a b, same (vi_VendorNumber a) (vi_VendorNumber b))
  (λ x, same_refl _) (λ a b c, same_euclid _ _ _)
  (vendor_invoice db)) as Hm.
rewrite List.Forall_forall in Hm. specialize (Hm g Hg). simpl in Hm.
apply freight_of_group_fields in Hgf as (E1 & Ef).
rewrite Hm in Ef. by rewrite E1.
Qed.
End TotalsFacts.

Lemma purchase_totals_of_row_witness :
  ∃ o, In o rows_example ∧
    sum_cells (map (λ r, p_Quantity r.1)
                 (List.filter (λ r, same_keys (row_key o) (purchase_key r))
                    (priced_purchases db_example)))
      = Some (TotalPurchaseQuantity o) ∧
    sum_cells (map (λ r, p_Dollars r.1)
                 (List.filter (λ r, same_keys (row_key o) (purchase_key r))
                    (priced_purchases db_example)))
      = Some (TotalPurchaseDollars o).
Proof.
  eexists. split; [left; reflexivity|].
  apply (purchase_totals_of_row sum_cells db_example rows_example);
    [reflexivity|left; reflexivity].
Defined.

Lemma sales_totals_of_pair_witness :
  ∃ s, In s ss_example ∧
    let sales := List.filter
      (λ x, same_keys [ss_VendorNo s; ss_Brand s] (sales_key x)) (Sales db_example) in
    sum_cells (map s_SalesQuantity sales) = Some (ss_TotalSalesQuantity s) ∧
    sum_cells (map s_SalesDollars sales) = Some (ss_TotalSalesDollars s) ∧
    sum_cells (map s_SalesPrice sales) = Some (ss_TotalSalesPrice s) ∧
    sum_cells (map s_ExciseTax sales) = Some (ss_TotalExciseTax s).
Proof.
  eexists. split; [left; reflexivity|].
  apply (sales_totals_of_pair sum_cells db_example ss_example);
    [reflexivity|left; reflexivity].
Defined.

Lemma freight_total_of_vendor_witness :
  ∃ f, In f fs_example ∧
    sum_cells (map vi_Freight
                 (List.filter (λ x, same (fs_VendorNumber f) (vi_VendorNumber x))
                    (vendor_invoice db_example)))
      = Some (fs_FreightCost f).
Proof.
  eexists. split; [left; reflexivity|].
  apply (freight_total_of_vendor sum_cells db_example fs_example);
    [reflexivity|left; reflexivity].
Defined.

(** ** An integer never becomes not-a-number *)

Lemma shr_1_nonneg (mrs : shr_record) : 0 <= shr_m mrs → 0 <= shr_m (shr_1 mrs).
Proof.
  destruct mrs as [m r s]. simpl. destruct m as [|p|p]; simpl; try lia.
  destruct p; simpl; lia.
Qed.

Lemma iter_shr_1_nonneg (p : positive) (mrs : shr_record) :
  0 <= shr_m mrs → 0 <= shr_m (SpecFloat.iter_pos shr_1 p mrs).
Proof.
  revert mrs. induction p as [p IH|p IH|]; intros mrs H; simpl.
  - apply IH, IH, shr_1_nonneg, H.
  - apply IH, IH, H.
  - apply shr_1_nonneg, H.
Qed.

Lemma shr_fexp_nonneg (m e : Z) (l : location) :
  0 <= m → 0 <= shr_m (shr_fexp 53 1024 m e l).1.
Proof.
  intros H. unfold shr_fexp, shr.
  assert (0 <= shr_m (shr_record_of_loc m l)) as H'.
  { destruct l as [|[]]; simpl; exact H. }
  destruct (fexp 53 1024 (Zdigits2 m + e) - e); simpl; auto.
  by apply iter_shr_1_nonneg.
Qed.

Lemma round_nearest_even_nonneg (m : Z) (l : location) :
  0 <= m → 0 <= round_nearest_even m l.
Proof.
  intros H. unfold round_nearest_even.
  destruct l as [|[]]; try lia. destruct (Z.even m); lia.
Qed.

Lemma binary_round_aux_not_nan (s : bool) (m e : Z) (l : location) :
  0 <= m → is_nan (binary_round_aux 53 1024 s m e l) = false.
Proof.
  intros H. unfold binary_round_aux.
  pose proof (shr_fexp_nonneg m e l H) as H1.
  destruct (shr_fexp 53 1024 m e l) as [mrs' e']. simpl in H1.
  pose proof (shr_fexp_nonneg _ e' loc_Exact
                (round_nearest_even_nonneg _ (loc_of_shr_record mrs') H1)) as H2.
  destruct (shr_fexp 53 1024 _ e' loc_Exact) as [mrs'' e'']. simpl in H2.
  destruct (shr_m mrs'') as [|p|p]; try reflexivity; [|lia].
  by destruct (e'' <=? 1024 - 53).
Qed.

Lemma float_of_Z_not_nan (z : Z) : is_nan (float_of_Z z) = false.
Proof.
  unfold float_of_Z, binary_normalize.
  destruct z as [|p|p]; [reflexivity| |];
    unfold binary_round;
    destruct (shl_align _ _ _) as [mz ez];
    apply binary_round_aux_not_nan; lia.
Qed.

(** ** More on [clean_data] *)

Lemma fillna_zero_no_missing (c : column) (i : nat) (x : pyobj) :
  cells (fillna_zero c) !! i = Some x → py_isna x = false.
Proof.
  destruct c as [l|l|l]; simpl.
  - rewrite lookup_map. destruct (l !! i); simpl; [|discriminate].
    intros [= <-]. reflexivity.
  - rewrite !lookup_map. destruct (l !! i) as [f|]; simpl; [|discriminate].
    intros [= <-]. simpl. by destruct f.
  - destruct (existsb py_isna l) eqn:E.
    + unfold soft_convert. destruct (map fill_cell l) as [|o l'] eqn:El.
      { by destruct i. }
      assert (∀ y, (o :: l') !! i = Some y → py_isna y = false) as Hfill.
      { rewrite <- El, lookup_map. destruct (l !! i) as [y0|]; simpl;
          [|discriminate]. intros y [= <-].
        unfold fill_cell. by destruct (py_isna y0) eqn:E0. }
      destruct (forallb is_PyInt64 (o :: l')) eqn:E1;
        [|destruct (forallb is_PyNumber (o :: l')) eqn:E2]; cbn [cells].
      * rewrite !lookup_map. destruct ((o :: l') !! i) as [y|] eqn:Ey; simpl;
          [|discriminate]. intros [= <-]. reflexivity.
      * rewrite !lookup_map. destruct ((o :: l') !! i) as [y|] eqn:Ey; simpl;
          [|discriminate]. intros [= <-].
        specialize (Hfill y eq_refl).
        pose proof (forallb_lookup_true _ _ _ _ Ey E2) as Hn.
        destruct y as [|z|f|s]; simpl in Hfill, Hn |- *; try discriminate; auto.
        apply float_of_Z_not_nan.
      * intros Hx. by apply Hfill.
    + simpl. intros Hx. destruct (py_isna x) eqn:Ex; [|reflexivity].
      by rewrite (existsb_lookup _ _ _ _ Hx Ex) in E.
Qed.

Lemma get_col_None_names (df : frame) (n : string) :
  get_col df n = None ↔ ¬ In n (column_names df).
Proof.
  unfold column_names. induction df as [|[m c] df IH]; simpl; [tauto|].
  destruct (String.eqb_spec m n) as [->|Hne].
  - split; [discriminate|]. intros H. exfalso. apply H. auto.
  - rewrite IH. tauto.
Qed.

Lemma column_names_set_col (df : frame) (n : string) (c : column) :
  column_names (set_col df n c)
  = match get_col df n with
    | Some _ => column_names df
    | None => column_names df ++ [n]
    end.
Proof.
  unfold column_names. induction df as [|[m c0] df IH]; simpl; [reflexivity|].
  destruct (String.eqb m n); simpl; [reflexivity|].
  rewrite IH. by destruct (get_col df n).
Qed.

Lemma column_names_fillna (df : frame) :
  column_names (map (λ nc, (nc.1, fillna_zero nc.2)) df) = column_names df.
Proof. unfold column_names. rewrite map_map. reflexivity. Qed.




Section CleaningMore.
Variable float_of_str : string → option spec_float.

Lemma astype_float64_Float64 (c v : column) :
astype_float64 float_of_str c = Ok v → ∃ l, v = Float64 l.
Proof.
destruct c as [l|l|l]; simpl.
- intros [= <-]. eauto.
- intros [= <-]. eauto.
- destruct (result_map (float_of_cell float_of_str) l); [|discriminate].
  simpl. intros [= <-]. eauto.
Qed.

Lemma cast_fill_strip_inv l st st' df :
heap st !! l = Some df →
cast_fill_strip float_of_str (VFrame l) st = (Ok tt, st') →
∃ c0 v cn cn' cd cd',
  get_col df "Volume" = Some c0 ∧
  astype_float64 float_of_str c0 = Ok v ∧
  get_col df "VendorName" = Some cn ∧
  str_strip (fillna_zero cn) = Ok cn' ∧
  get_col df "Description" = Some cd ∧
  str_strip (fillna_zero cd) = Ok cd' ∧
  st' = set_heap
          (<[l := set_col (set_col (map (λ nc, (nc.1, fillna_zero nc.2))
                                      (set_col df "Volume" v))
                             "VendorName" cn') "Description" cd']>
             (heap st)) st.
Proof.
intros Hl H. unfold cast_fill_strip in H.
apply bind_Ok_inv in H as (c & st1 & H1 & H).
rewrite (getitem_frame _ _ _ _ Hl) in H1.
destruct (get_col df "Volume") as [c0|] eqn:E0; [|discriminate].
injection H1 as -> ->.
apply bind_Ok_inv in H as (v & st2 & H2 & H).
unfold lift in H2. injection H2 as H2 ->.
apply bind_Ok_inv in H as ([] & st3 & H3 & H).
rewrite (setitem_frame _ _ _ _ _ Hl) in H3. injection H3 as <-.
apply bind_Ok_inv in H as ([] & st4 & H4 & H).
erewrite fillna_frame in H4 by (simpl; apply lookup_insert_eq).
injection H4 as <-.
apply bind_Ok_inv in H as ([] & st5 & H5 & H).
eapply strip_column_Ok in H5; [|simpl; apply lookup_insert_eq].
destruct H5 as (cn & cn' & Hcn & Hcn' & ->).
eapply strip_column_Ok in H; [|simpl; apply lookup_insert_eq].
destruct H as (cd & cd' & Hcd & Hcd' & ->).
rewrite get_col_fillna, get_col_set_col_ne in Hcn by done.
rewrite get_col_set_col_ne, get_col_fillna, get_col_set_col_ne in Hcd by done.
destruct (get_col df "VendorName") as [cn0|]; [|discriminate].
destruct (get_col df "Description") as [cd0|]; [|discriminate].
simpl in Hcn, Hcd. injection Hcn as <-. injection Hcd as <-.
exists c, v, cn0, cn', cd0, cd'. repeat split; auto.
unfold set_heap. simpl. by rewrite !insert_insert_eq.
Qed.
End CleaningMore.

(** ** Lines 92 to 95, read backwards from a run that returned *)

Lemma summary_column_inv st st' g T n c :
  globals st !! "vendor_sales_summary" = Some (VFrame g) →
  heap st !! g = Some T →
  summary_column n st = (Ok c, st') →
  get_col T n = Some c ∧ st' = st.
Proof.
  intros Hg Hh. unfold summary_column, load_global.
  rewrite run_bind, Hg, (getitem_frame _ _ _ _ Hh).
  destruct (get_col T n); [|discriminate]. intros [= <- <-]. auto.
Qed.

Lemma lift_inv {A} (r : result A) (a : A) (st st' : state) :
  lift r st = (Ok a, st') → r = Ok a ∧ st' = st.
Proof. unfold lift. intros [= -> <-]. auto. Qed.

Lemma add_ratio_columns_inv st st' g T :
  globals st !! "vendor_sales_summary" = Some (VFrame g) →
  heap st !! g = Some T →
  add_ratio_columns st = (Ok tt, st') →
  ∃ tsd tpd tsq tpq gp q pm sto spr,
    get_col T "TotalSalesDollars" = Some tsd ∧
    get_col T "TotalPurchaseDollars" = Some tpd ∧
    get_col T "TotalSalesQuantity" = Some tsq ∧
    get_col T "TotalPurchaseQuantity" = Some tpq ∧
    col_sub tsd tpd = Ok gp ∧
    col_div gp tsd = Ok q ∧
    col_mul_int q 100 = Ok pm ∧
    col_div tsq tpq = Ok sto ∧
    col_div tsd tpd = Ok spr ∧
    st' = set_heap
            (<[g := set_col (set_col (set_col (set_col T "GrossProfit" gp)
                                        "ProfitMargin" pm)
                               "StockTurnover" sto)
                      "SalesToPurchaseRatio" spr]> (heap st)) st.
Proof.
  intros Hg Hh H. unfold add_ratio_columns in H.
  apply bind_Ok_inv in H as (tsd & s & H1 & H).
  apply (summary_column_inv _ _ _ _ _ _ Hg Hh) in H1 as [H1 ->].
  apply bind_Ok_inv in H as (tpd & s & H2 & H).
  apply (summary_column_inv _ _ _ _ _ _ Hg Hh) in H2 as [H2 ->].
  apply bind_Ok_inv in H as (gp & s & Hgp & H).
  apply lift_inv in Hgp as [Hgp ->].
  apply bind_Ok_inv in H as ([] & s & Hs & H).
  rewrite (set_summary_column_run _ _ _ _ _ Hg Hh) in Hs. injection Hs as <-.
  set (T1 := set_col T "GrossProfit" gp) in *.
  set (st1 := set_heap (<[g:=T1]> (heap st)) st) in *.
  assert (globals st1 !! "vendor_sales_summary" = Some (VFrame g)) as Hg1 by exact Hg.
  assert (heap st1 !! g = Some T1) as Hh1 by apply lookup_insert_eq.
  apply bind_Ok_inv in H as (a & s & Ha & H).
  apply (summary_column_inv _ _ _ _ _ _ Hg1 Hh1) in Ha as [Ha ->].
  unfold T1 in Ha. rewrite get_col_set_col in Ha. injection Ha as <-.
  apply bind_Ok_inv in H as (b & s & Hb & H).
  apply (summary_column_inv _ _ _ _ _ _ Hg1 Hh1) in Hb as [Hb ->].
  unfold T1 in Hb. rewrite get_col_set_col_ne in Hb by done.
  rewrite H1 in Hb. injection Hb as <-.
  apply bind_Ok_inv in H as (q & s & Hq & H).
  apply lift_inv in Hq as [Hq ->].
  apply bind_Ok_inv in H as (pm & s & Hpm & H).
  apply lift_inv in Hpm as [Hpm ->].
  apply bind_Ok_inv in H as ([] & s & Hs & H).
  rewrite (set_summary_column_run _ _ _ _ _ Hg1 Hh1) in Hs. injection Hs as <-.
  set (T2 := set_col T1 "ProfitMargin" pm) in *.
  set (st2 := set_heap (<[g:=T2]> (heap st1)) st1) in *.
  assert (globals st2 !! "vendor_sales_summary" = Some (VFrame g)) as Hg2 by exact Hg.
  assert (heap st2 !! g = Some T2) as Hh2 by apply lookup_insert_eq.
  apply bind_Ok_inv in H as (tsq & s & H3 & H).
  apply (summary_column_inv _ _ _ _ _ _ Hg2 Hh2) in H3 as [H3 ->].
  unfold T2, T1 in H3. rewrite !get_col_set_col_ne in H3 by done.
  apply bind_Ok_inv in H as (tpq & s & H4 & H).
  apply (summary_column_inv _ _ _ _ _ _ Hg2 Hh2) in H4 as [H4 ->].
  unfold T2, T1 in H4. rewrite !get_col_set_col_ne in H4 by done.
  apply bind_Ok_inv in H as (sto & s & Hsto & H).
  apply lift_inv in Hsto as [Hsto ->].
  apply bind_Ok_inv in H as ([] & s & Hs & H).
  rewrite (set_summary_column_run _ _ _ _ _ Hg2 Hh2) in Hs. injection Hs as <-.
  set (T3 := set_col T2 "StockTurnover" sto) in *.
  set (st3 := set_heap (<[g:=T3]> (heap st2)) st2) in *.
  assert (globals st3 !! "vendor_sales_summary" = Some (VFrame g)) as Hg3 by exact Hg.
  assert (heap st3 !! g = Some T3) as Hh3 by apply lookup_insert_eq.
  apply bind_Ok_inv in H as (a & s & Ha & H).
  apply (summary_column_inv _ _ _ _ _ _ Hg3 Hh3) in Ha as [Ha ->].
  unfold T3, T2, T1 in Ha. rewrite !get_col_set_col_ne in Ha by done.
  rewrite H1 in Ha. injection Ha as <-.
  apply bind_Ok_inv in H as (b & s & Hb & H).
  apply (summary_column_inv _ _ _ _ _ _ Hg3 Hh3) in Hb as [Hb ->].
  unfold T3, T2, T1 in Hb. rewrite !get_col_set_col_ne in Hb by done.
  rewrite H2 in Hb. injection Hb as <-.
  apply bind_Ok_inv in H as (spr & s & Hspr & H).
  apply lift_inv in Hspr as [Hspr ->].
  rewrite (set_summary_column_run _ _ _ _ _ Hg3 Hh3) in H. injection H as <-.
  exists tsd, tpd, tsq, tpq, gp, q, pm, sto, spr. repeat split; auto.
  unfold st3, st2, st1, set_heap. simpl. by rewrite !insert_insert_eq.
Qed.

Lemma result_map_lookup {A B} (f : A → result B) (l : list A) (k : list B)
    (i : nat) (x : A) :
  result_map f l = Ok k → l !! i = Some x →
  ∃ y, f x = Ok y ∧ k !! i = Some y.
Proof.
  intros H Hx. apply result_map_Ok_Forall2 in H.
  destruct (Forall2_lookup_l _ _ _ _ _ H Hx) as (y & Hy & Hf). eauto.
Qed.

Lemma result_map_length {A B} (f : A → result B) (l : list A) (k : list B) :
  result_map f l = Ok k → length k = length l.
Proof.
  intros H. apply result_map_Ok_Forall2 in H. symmetry.
  eapply Forall2_length, H.
Qed.

Section CleaningTheorems.
Variable float_of_str : string → option spec_float.

(** Lines 82 to 89 run forwards. *)
Lemma cast_fill_strip_run l st df c0 v cn cn' cd cd' :
  heap st !! l = Some df →
  get_col df "Volume" = Some c0 →
  astype_float64 float_of_str c0 = Ok v →
  get_col df "VendorName" = Some cn →
  str_strip (fillna_zero cn) = Ok cn' →
  get_col df "Description" = Some cd →
  str_strip (fillna_zero cd) = Ok cd' →
  cast_fill_strip float_of_str (VFrame l) st
  = (Ok tt,
     set_heap
       (<[l := set_col (set_col (map (λ nc, (nc.1, fillna_zero nc.2))
                                   (set_col df "Volume" v))
                          "VendorName" cn') "Description" cd']>
          (heap st)) st).
Proof.
  intros Hl H0 Hv Hn Hn' Hd Hd'. unfold cast_fill_strip.
  rewrite run_bind, (getitem_frame _ _ _ _ Hl), H0.
  rewrite run_bind. unfold lift at 1. rewrite Hv.
  rewrite run_bind, (setitem_frame _ _ _ _ _ Hl).
  set (st1 := set_heap (<[l:=set_col df "Volume" v]> (heap st)) st).
  assert (heap st1 !! l = Some (set_col df "Volume" v)) as Hl1
    by apply lookup_insert_eq.
  rewrite run_bind, (fillna_frame _ _ _ Hl1).
  set (df2 := map (λ nc, (nc.1, fillna_zero nc.2)) (set_col df "Volume" v)).
  set (st2 := set_heap (<[l:=df2]> (heap st1)) st1).
  assert (heap st2 !! l = Some df2) as Hl2 by apply lookup_insert_eq.
  assert (get_col df2 "VendorName" = Some (fillna_zero cn)) as Hn2.
  { unfold df2. rewrite get_col_fillna, get_col_set_col_ne, Hn by done.
    reflexivity. }
  assert (get_col df2 "Description" = Some (fillna_zero cd)) as Hd2.
  { unfold df2. rewrite get_col_fillna, get_col_set_col_ne, Hd by done.
    reflexivity. }
  rewrite run_bind. unfold strip_column at 1.
  rewrite run_bind, (getitem_frame _ _ _ _ Hl2), Hn2.
  rewrite run_bind. unfold lift at 1. rewrite Hn'.
  rewrite (setitem_frame _ _ _ _ _ Hl2).
  set (df3 := set_col df2 "VendorName" cn').
  set (st3 := set_heap (<[l:=df3]> (heap st2)) st2).
  assert (heap st3 !! l = Some df3) as Hl3 by apply lookup_insert_eq.
  unfold strip_column.
  rewrite run_bind, (getitem_frame _ _ _ _ Hl3).
  unfold df3 at 1. rewrite get_col_set_col_ne, Hd2 by done.
  rewrite run_bind. unfold lift at 1. rewrite Hd'.
  rewrite (setitem_frame _ _ _ _ _ Hl3).
  unfold st3, st2, st1, set_heap. simpl. by rewrite !insert_insert_eq.
Qed.

(** A run of [clean_data] that returned, split at line 89. *)
Lemma clean_data_inv l st st' r df :
  heap st !! l = Some df →
  clean_data float_of_str (VFrame l) st = (Ok r, st') →
  r = VFrame l ∧
  ∃ c0 v cn cn' cd cd',
    get_col df "Volume" = Some c0 ∧
    astype_float64 float_of_str c0 = Ok v ∧
    get_col df "VendorName" = Some cn ∧
    str_strip (fillna_zero cn) = Ok cn' ∧
    get_col df "Description" = Some cd ∧
    str_strip (fillna_zero cd) = Ok cd' ∧
    add_ratio_columns
      (set_heap
         (<[l := set_col (set_col (map (λ nc, (nc.1, fillna_zero nc.2))
                                     (set_col df "Volume" v))
                            "VendorName" cn') "Description" cd']>
            (heap st)) st)
    = (Ok tt, st').
Proof.
  intros Hl. unfold clean_data. intros H.
  apply bind_Ok_inv in H as ([] & st1 & H1 & H).
  apply bind_Ok_inv in H as ([] & st2 & H2 & H).
  injection H as <- <-. split; [reflexivity|].
  destruct (cast_fill_strip_inv _ _ _ _ _ Hl H1)
    as (c0 & v & cn & cn' & cd & cd' & ? & ? & ? & ? & ? & ? & ->).
  exists c0, v, cn, cn', cd, cd'. repeat split; auto.
Qed.

Lemma clean_data_volume l st st' r df :
  heap st !! l = Some df →
  clean_data float_of_str (VFrame l) st = (Ok r, st') →
  ∃ df' c0 v,
    heap st' !! l = Some df' ∧
    get_col df "Volume" = Some c0 ∧
    astype_float64 float_of_str c0 = Ok v ∧
    get_col df' "Volume" = Some (fillna_zero v).
Proof.
  intros Hl H.
  destruct (clean_data_inv _ _ _ _ _ Hl H)
    as (_ & c0 & v & cn & cn' & cd & cd' & H0 & Hv & _ & _ & _ & _ & Hr).
  pose proof (keeps_add_ratio_columns
    (set_heap (<[l := set_col (set_col (map (λ nc, (nc.1, fillna_zero nc.2))
                                 (set_col df "Volume" v))
                        "VendorName" cn') "Description" cd']> (heap st)) st))
    as (_ & _ & Hk).
  rewrite Hr in Hk. simpl in Hk.
  destruct (Hk l _ (lookup_insert_eq _ _ _)) as (df' & Hdf' & Hcols).
  exists df', c0, v. repeat split; auto.
  rewrite Hcols by (unfold ratio_columns; simpl; intuition discriminate).
  rewrite !get_col_set_col_ne by done.
  rewrite get_col_fillna, get_col_set_col. reflexivity.
Qed.

(** X15: in the table a returning [clean_data] hands back, no cell is
    missing (neither None nor NaN) in any column other than VendorName,
    Description and the four ratio columns: the numeric columns of the
    query and Volume are filled by line 85. *)
Theorem no_missing_after_cleaning l st st' r df :
  heap st !! l = Some df →
  clean_data float_of_str (VFrame l) st = (Ok r, st') →
  ∃ df',
    heap st' !! l = Some df' ∧
    ∀ n c i x,
      ¬ In n ratio_columns → n ≠ "VendorName" → n ≠ "Description" →
      get_col df' n = Some c → cells c !! i = Some x → py_isna x = false.
Proof.
  intros Hl H.
  destruct (clean_data_volume _ _ _ _ _ Hl H)
    as (df' & c0 & v & Hdf' & _ & _ & Hvol).
  destruct (clean_data_Ok _ _ _ _ _ _ Hl H) as (_ & df'' & Hdf'' & Hoth & _).
  rewrite Hdf' in Hdf''. injection Hdf'' as <-.
  exists df'. split; [exact Hdf'|].
  intros n c i x Hr Hn Hd Hc Hx.
  destruct (String.eqb_spec n "Volume") as [->|Hv].
  - rewrite Hvol in Hc. injection Hc as <-.
    eapply fillna_zero_no_missing, Hx.
  - rewrite (Hoth n Hr Hv Hn Hd) in Hc.
    destruct (get_col df n) as [c1|]; [|discriminate].
    simpl in Hc. injection Hc as <-.
    eapply fillna_zero_no_missing, Hx.
Qed.

(** X16: a returning [clean_data] leaves Volume as a float64 column of the
    height it had, and a cell that held the text [s] holds [float(s)]
    (zero where that is NaN). *)
Theorem volume_text_parsed l st st' r df c0 i s :
  heap st !! l = Some df →
  clean_data float_of_str (VFrame l) st = (Ok r, st') →
  get_col df "Volume" = Some c0 →
  cells c0 !! i = Some (PyStr s) →
  ∃ df' fs f,
    heap st' !! l = Some df' ∧
    get_col df' "Volume" = Some (Float64 fs) ∧
    length fs = length (cells c0) ∧
    float_of_str s = Some f ∧
    fs !! i = Some (if is_nan f then S754_zero false else f).
Proof.
  intros Hl H H0 Hi.
  destruct (clean_data_volume _ _ _ _ _ Hl H)
    as (df' & c0' & v & Hdf' & H0' & Hv & Hvol).
  rewrite H0 in H0'. injection H0' as <-.
  destruct c0 as [k|k|k]; simpl in Hi.
  - rewrite lookup_map in Hi. destruct (k !! i); discriminate.
  - rewrite lookup_map in Hi. destruct (k !! i); discriminate.
  - simpl in Hv.
    destruct (result_map (float_of_cell float_of_str) k) as [fl|] eqn:E;
      [|discriminate].
    simpl in Hv. injection Hv as <-.
    destruct (result_map_lookup _ _ _ _ _ E Hi) as (f & Hf & Hfi).
    simpl in Hf. destruct (float_of_str s) as [f0|]; [|discriminate].
    injection Hf as ->.
    exists df', (map (λ f, if is_nan f then S754_zero false else f) fl), f.
    repeat split; auto.
    + rewrite length_map. simpl. eapply result_map_length, E.
    + rewrite lookup_map, Hfi. reflexivity.
Qed.

(** X17: a Volume cell holding a text that [float] rejects makes
    [clean_data] raise at line 82, before anything is modified. *)
Theorem volume_text_rejected l st df c0 i s :
  heap st !! l = Some df →
  get_col df "Volume" = Some c0 →
  cells c0 !! i = Some (PyStr s) →
  float_of_str s = None →
  ∃ e, clean_data float_of_str (VFrame l) st = (Raise e, st).
Proof.
  intros Hl H0 Hi Hs.
  destruct (astype_float64 float_of_str c0) as [v|e] eqn:Hv.
  - exfalso. destruct c0 as [k|k|k]; simpl in Hi.
    + rewrite lookup_map in Hi. destruct (k !! i); discriminate.
    + rewrite lookup_map in Hi. destruct (k !! i); discriminate.
    + simpl in Hv.
      destruct (result_map (float_of_cell float_of_str) k) as [fl|] eqn:E;
        [|discriminate].
      destruct (result_map_lookup _ _ _ _ _ E Hi) as (f & Hf & _).
      simpl in Hf. rewrite Hs in Hf. discriminate.
  - exists e. unfold clean_data, cast_fill_strip.
    rewrite !run_bind, (getitem_frame _ _ _ _ Hl), H0.
    unfold lift. rewrite Hv. reflexivity.
Qed.


(** X19: with the name [vendor_sales_summary] unbound, a table that lines
    82 to 89 accept makes [clean_data] raise NameError at line 92, after
    the table has been cast, filled and stripped in place: the caller's
    table is modified although no table is returned. *)
Theorem name_error_after_cleaning_in_place l st df c0 v cn cn' cd cd' :
  heap st !! l = Some df →
  globals st !! "vendor_sales_summary" = None →
  get_col df "Volume" = Some c0 →
  astype_float64 float_of_str c0 = Ok v →
  get_col df "VendorName" = Some cn →
  str_strip (fillna_zero cn) = Ok cn' →
  get_col df "Description" = Some cd →
  str_strip (fillna_zero cd) = Ok cd' →
  ∃ st' df',
    clean_data float_of_str (VFrame l) st = (Raise NameError, st') ∧
    heap st' !! l = Some df' ∧
    get_col df' "Volume" = Some (fillna_zero v) ∧
    get_col df' "VendorName" = Some cn' ∧
    get_col df' "Description" = Some cd' ∧
    ∀ n, n ≠ "Volume" → n ≠ "VendorName" → n ≠ "Description" →
         get_col df' n = option_map fillna_zero (get_col df n).
Proof.
  intros Hl Hg H0 Hv Hn Hn' Hd Hd'.
  eexists _, _. split.
  { unfold clean_data.
    rewrite run_bind, (cast_fill_strip_run _ _ _ _ _ _ _ _ _ Hl H0 Hv Hn Hn' Hd Hd').
    rewrite run_bind. unfold add_ratio_columns, summary_column.
    rewrite !run_bind. unfold load_global. simpl. rewrite Hg. reflexivity. }
  split; [simpl; apply lookup_insert_eq|].
  split; [|split; [|split]].
  - rewrite !get_col_set_col_ne by done.
    rewrite get_col_fillna, get_col_set_col. reflexivity.
  - rewrite get_col_set_col_ne by done. apply get_col_set_col.
  - apply get_col_set_col.
  - intros n N1 N2 N3. rewrite !get_col_set_col_ne by congruence.
    rewrite get_col_fillna, get_col_set_col_ne by congruence. reflexivity.
Qed.

(** X20: when the caller has bound [vendor_sales_summary] to the very
    table it passes and that table has none of the four ratio columns yet,
    a returning [clean_data] hands back that table with its columns in
    their order followed by GrossProfit, ProfitMargin, StockTurnover and
    SalesToPurchaseRatio, in this order. *)
Theorem ratio_columns_appended l st st' r df :
  heap st !! l = Some df →
  globals st !! "vendor_sales_summary" = Some (VFrame l) →
  (∀ n, In n ratio_columns → get_col df n = None) →
  clean_data float_of_str (VFrame l) st = (Ok r, st') →
  ∃ df',
    r = VFrame l ∧
    heap st' !! l = Some df' ∧
    column_names df' = column_names df ++ ratio_columns.
Proof.
  intros Hl Hg Hnone H.
  destruct (clean_data_inv _ _ _ _ _ Hl H)
    as (-> & c0 & v & cn & cn' & cd & cd' & H0 & Hv & Hn & Hn' & Hd & Hd' & Hr).
  set (df1 := set_col (set_col (map (λ nc, (nc.1, fillna_zero nc.2))
                (set_col df "Volume" v)) "VendorName" cn') "Description" cd')
    in *.
  apply (add_ratio_columns_inv _ _ l df1) in Hr;
    [|exact Hg|simpl; apply lookup_insert_eq].
  destruct Hr as (tsd & tpd & tsq & tpq & gp & q & pm & sto & spr & _ & _ & _
                  & _ & _ & _ & _ & _ & _ & ->).
  eexists. split; [reflexivity|]. split; [simpl; apply lookup_insert_eq|].
  assert (∀ n, In n ratio_columns → get_col df1 n = None) as Hnone1.
  { intros n Hin. pose proof (Hnone n Hin) as Hdf.
    assert (n ≠ "Volume" ∧ n ≠ "VendorName" ∧ n ≠ "Description") as (N1 & N2 & N3).
    { unfold ratio_columns in Hin. simpl in Hin.
      repeat split; intros ->; intuition discriminate. }
    unfold df1. rewrite !get_col_set_col_ne by congruence.
    rewrite get_col_fillna, get_col_set_col_ne, Hdf by congruence. reflexivity. }
  assert (column_names df1 = column_names df) as Hnames.
  { unfold df1. rewrite column_names_set_col.
    rewrite get_col_set_col_ne, get_col_fillna, get_col_set_col_ne, Hd by done.
    simpl. rewrite column_names_set_col.
    rewrite get_col_fillna, get_col_set_col_ne, Hn by done. simpl.
    rewrite column_names_fillna, column_names_set_col, H0. reflexivity. }
  rewrite !column_names_set_col.
  rewrite !get_col_set_col_ne by done.
  rewrite !Hnone1 by (unfold ratio_columns; simpl; tauto).
  rewrite Hnames, <- !app_assoc. reflexivity.
Qed.

(** X21: when the caller has bound [vendor_sales_summary] to the very
    table it passes, the table a returning [clean_data] hands back holds
    GrossProfit = TotalSalesDollars - TotalPurchaseDollars,
    ProfitMargin = GrossProfit / TotalSalesDollars * 100,
    StockTurnover = TotalSalesQuantity / TotalPurchaseQuantity and
    SalesToPurchaseRatio = TotalSalesDollars / TotalPurchaseDollars,
    column by column on its own columns. *)
Theorem ratios_of_returned_table l st st' r df :
  heap st !! l = Some df →
  globals st !! "vendor_sales_summary" = Some (VFrame l) →
  clean_data float_of_str (VFrame l) st = (Ok r, st') →
  ∃ df' tsd tpd tsq tpq gp q pm sto spr,
    r = VFrame l ∧
    heap st' !! l = Some df' ∧
    get_col df' "TotalSalesDollars" = Some tsd ∧
    get_col df' "TotalPurchaseDollars" = Some tpd ∧
    get_col df' "TotalSalesQuantity" = Some tsq ∧
    get_col df' "TotalPurchaseQuantity" = Some tpq ∧
    get_col df' "GrossProfit" = Some gp ∧ col_sub tsd tpd = Ok gp ∧
    get_col df' "ProfitMargin" = Some pm ∧
    col_div gp tsd = Ok q ∧ col_mul_int q 100 = Ok pm ∧
    get_col df' "StockTurnover" = Some sto ∧ col_div tsq tpq = Ok sto ∧
    get_col df' "SalesToPurchaseRatio" = Some spr ∧ col_div tsd tpd = Ok spr.
Proof.
  intros Hl Hg H.
  destruct (clean_data_inv _ _ _ _ _ Hl H)
    as (-> & c0 & v & cn & cn' & cd & cd' & _ & _ & _ & _ & _ & _ & Hr).
  set (df1 := set_col (set_col (map (λ nc, (nc.1, fillna_zero nc.2))
                (set_col df "Volume" v)) "VendorName" cn') "Description" cd')
    in *.
  apply (add_ratio_columns_inv _ _ l df1) in Hr;
    [|exact Hg|simpl; apply lookup_insert_eq].
  destruct Hr as (tsd & tpd & tsq & tpq & gp & q & pm & sto & spr & H1 & H2
                  & H3 & H4 & Hgp & Hq & Hpm & Hsto & Hspr & ->).
  eexists _, tsd, tpd, tsq, tpq, gp, q, pm, sto, spr.
  split; [reflexivity|]. split; [simpl; apply lookup_insert_eq|].
  repeat split; auto;
    rewrite ?get_col_set_col_ne by done; auto; apply get_col_set_col.
Qed.
End CleaningTheorems.

Lemma no_missing_after_cleaning_witness :
  ∃ df',
    heap (clean_data float_of_digits (VFrame 0) st_alias).2 !! 0%nat = Some df' ∧
    ∀ n c i x,
      ¬ In n ratio_columns → n ≠ "VendorName" → n ≠ "Description" →
      get_col df' n = Some c → cells c !! i = Some x → py_isna x = false.
Proof.
  apply (no_missing_after_cleaning float_of_digits 0 st_alias
           (clean_data float_of_digits (VFrame 0) st_alias).2 (VFrame 0)
           summary_example).
  - reflexivity.
  - vm_compute. reflexivity.
Defined.

Lemma volume_text_parsed_witness :
  ∃ df' fs f,
    heap (clean_data float_of_digits (VFrame 0) st_alias).2 !! 0%nat = Some df' ∧
    get_col df' "Volume" = Some (Float64 fs) ∧
    length fs = 2%nat ∧
    float_of_digits "1000" = Some f ∧
    fs !! 1%nat = Some (if is_nan f then S754_zero false else f).
Proof.
  apply (volume_text_parsed float_of_digits 0 st_alias
           (clean_data float_of_digits (VFrame 0) st_alias).2 (VFrame 0)
           summary_example (Object [PyStr "750"; PyStr "1000"]) 1 "1000").
  - reflexivity.
  - vm_compute. reflexivity.
  - reflexivity.
  - reflexivity.
Defined.

Lemma volume_text_rejected_witness :
  ∃ e, clean_data float_of_digits (VFrame 0) st_bad_volume
       = (Raise e, st_bad_volume).
Proof.
  apply (volume_text_rejected float_of_digits 0 st_bad_volume
           [("Volume", Object [PyStr "750"; PyStr "n/a"])]
           (Object [PyStr "750"; PyStr "n/a"]) 1 "n/a").
  - reflexivity.
  - reflexivity.
  - reflexivity.
  - reflexivity.
Defined.


Lemma name_error_after_cleaning_in_place_witness :
  ∃ st' df',
    clean_data float_of_digits (VFrame 0) st_main = (Raise NameError, st') ∧
    heap st' !! 0%nat = Some df' ∧
    get_col df' "VendorName" = Some (Object [PyStr "ACME"; PyStr "ACME"]).
Proof.
  destruct (name_error_after_cleaning_in_place float_of_digits 0 st_main
              summary_example
              (Object [PyStr "750"; PyStr "1000"])
              (Float64 [float_of_Z 750; float_of_Z 1000])
              (Object [PyStr "ACME "; PyStr "ACME "])
              (Object [PyStr "ACME"; PyStr "ACME"])
              (Object [PyStr " Gin"; PyStr " Gin"])
              (Object [PyStr "Gin"; PyStr "Gin"]))
    as (st' & df' & H1 & H2 & _ & H3 & _).
  - reflexivity.
  - reflexivity.
  - reflexivity.
  - vm_compute. reflexivity.
  - reflexivity.
  - vm_compute. reflexivity.
  - reflexivity.
  - vm_compute. reflexivity.
  - exists st', df'. auto.
Defined.

Lemma ratio_columns_appended_witness :
  ∃ df',
    VFrame 0 = VFrame 0 ∧
    heap (clean_data float_of_digits (VFrame 0) st_alias).2 !! 0%nat = Some df' ∧
    column_names df' = column_names summary_example ++ ratio_columns.
Proof.
  apply (ratio_columns_appended float_of_digits 0 st_alias
           (clean_data float_of_digits (VFrame 0) st_alias).2 (VFrame 0)
           summary_example).
  - reflexivity.
  - reflexivity.
  - intros n Hn. unfold ratio_columns in Hn. simpl in Hn.
    destruct Hn as [<-|[<-|[<-|[<-|[]]]]]; reflexivity.
  - vm_compute. reflexivity.
Defined.

Lemma ratios_of_returned_table_witness :
  ∃ df' tsd tpd gp,
    heap (clean_data float_of_digits (VFrame 0) st_alias).2 !! 0%nat = Some df' ∧
    get_col df' "TotalSalesDollars" = Some tsd ∧
    get_col df' "TotalPurchaseDollars" = Some tpd ∧
    get_col df' "GrossProfit" = Some gp ∧ col_sub tsd tpd = Ok gp.
Proof.
  destruct (ratios_of_returned_table float_of_digits 0 st_alias
              (clean_data float_of_digits (VFrame 0) st_alias).2 (VFrame 0)
              summary_example)
    as (df' & tsd & tpd & tsq & tpq & gp & q & pm & sto & spr & _ & H1 & H2 & H3
        & _ & _ & H4 & H5 & _).
  - reflexivity.
  - reflexivity.
  - vm_compute. reflexivity.
  - exists df', tsd, tpd, gp. auto.
Defined.

(** ** The frame [create_vendor_summary] returns *)



Section ScriptMore.
Variable sql_sum : list value → option value.
Variable float_of_str : string → option spec_float.


(** X23: when one of the four tables the query names is not in the
    database, [create_vendor_summary] raises and leaves the store as it
    was. *)
Theorem missing_base_table_raises st name :
  In name ["purchases"; "purchase_prices"; "vendor_invoice"; "sales"] →
  tables st !! name = None →
  ∃ e, create_vendor_summary sql_sum VConnection st = (Raise e, st).
Proof.
  intros Hin Hnone. exists OperationalError.
  unfold create_vendor_summary.
  assert (open_database (tables st) = None) as ->; [|reflexivity].
  unfold open_database. simpl in Hin.
  destruct (tables st !! lower "purchases" ≫= λ t, read_purchases t.2)
    as [p|] eqn:E1; [|reflexivity].
  destruct (tables st !! lower "purchase_prices" ≫= λ t, read_purchase_prices t.2)
    as [pp|] eqn:E2; [|reflexivity].
  destruct (tables st !! lower "vendor_invoice" ≫= λ t, read_vendor_invoice t.2)
    as [vi|] eqn:E3; [|reflexivity].
  destruct (tables st !! lower "Sales" ≫= λ t, read_Sales t.2)
    as [s|] eqn:E4; [|reflexivity].
  exfalso.
  destruct Hin as [<-|[<-|[<-|[<-|[]]]]].
  - change (lower "purchases") with "purchases" in E1.
    rewrite Hnone in E1. discriminate.
  - change (lower "purchase_prices") with "purchase_prices" in E2.
    rewrite Hnone in E2. discriminate.
  - change (lower "vendor_invoice") with "vendor_invoice" in E3.
    rewrite Hnone in E3. discriminate.
  - change (lower "Sales") with "sales" in E4.
    rewrite Hnone in E4. discriminate.
Qed.

(** X24: when the summary query computes, the main block gets as far as
    line 109 and stops there with the TypeError of [clean_data(conn)]: by
    then [summary_df] names a new table holding the summary, and the names
    [clean_df] and [vendor_sales_summary] are bound to nothing they were
    not bound to before; no table of the database is written. *)
Theorem main_block_stops_at_clean_data st db rows :
  open_database (tables st) = Some db →
  summary_query sql_sum db = Some rows →
  ∃ st' l,
    main_block sql_sum float_of_str st = (Raise TypeError, st') ∧
    globals st' !! "summary_df" = Some (VFrame l) ∧
    heap st !! l = None ∧
    heap st' !! l = Some (read_sql_query rows) ∧
    globals st' !! "clean_df" = globals st !! "clean_df" ∧
    globals st' !! "vendor_sales_summary" = globals st !! "vendor_sales_summary" ∧
    tables st' = tables st.
Proof.
  intros Hdb Hq.
  destruct (main_block sql_sum float_of_str st) as [r st'] eqn:E.
  unfold main_block, mbind, M_bind, store_global, load_global,
    create_vendor_summary, head, alloc in E.
  simpl in E. rewrite lookup_insert_eq in E. simpl in E.
  rewrite Hdb in E. simpl in E. rewrite Hq in E. simpl in E.
  rewrite lookup_insert_eq in E. simpl in E.
  rewrite lookup_insert_eq in E. simpl in E.
  rewrite lookup_insert_ne in E by done.
  rewrite lookup_insert_eq in E. simpl in E.
  injection E as <- <-.
  eexists. exists (fresh (dom (heap st))). split; [reflexivity|]. simpl.
  split; [apply lookup_insert_eq|].
  split; [apply not_elem_of_dom, is_fresh|].
  split.
  { rewrite lookup_insert_ne; [apply lookup_insert_eq|].
    intros Heq.
    apply (is_fresh (dom (<[fresh (dom (heap st)) := read_sql_query rows]>
                            (heap st)))).
    rewrite Heq. apply elem_of_dom. rewrite lookup_insert_eq. eauto. }
  split; [by do 2 (rewrite lookup_insert_ne by done)|].
  split; [by do 2 (rewrite lookup_insert_ne by done)|].
  reflexivity.
Qed.
End ScriptMore.


Lemma missing_base_table_raises_witness :
  ∃ e, create_vendor_summary sum_cells VConnection st_no_sales
       = (Raise e, st_no_sales).
Proof.
  apply (missing_base_table_raises sum_cells st_no_sales "sales").
  - simpl. tauto.
  - vm_compute. reflexivity.
Defined.

Lemma main_block_stops_at_clean_data_witness :
  ∃ st' l,
    main_block sum_cells float_of_digits st_database = (Raise TypeError, st') ∧
    globals st' !! "summary_df" = Some (VFrame l) ∧
    tables st' = tables st_database.
Proof.
  destruct (open_database (tables st_database)) as [db|] eqn:Hdb;
    [|vm_compute in Hdb; discriminate].
  destruct (summary_query sum_cells db) as [rows|] eqn:Hq;
    [|vm_compute in Hdb; injection Hdb as <-; vm_compute in Hq; discriminate].
  destruct (main_block_stops_at_clean_data sum_cells float_of_digits
              st_database db rows Hdb Hq)
    as (st' & l & H1 & H2 & _ & _ & _ & _ & H3).
  exists st', l. auto.
Defined.
